(** * Snapflow / dags runtime core: execution scopes, produce, converters, pipes

    A shallow embedding of the parts of the repository that the specification
    talks about:

    - [dags/core/environment.py]: [Environment.session_scope],
      [Environment.execution], [Environment.get_execution_context] and
      [Environment.produce];
    - [dags/core/pipe.py]: the exception classes [PipeException] and
      [InputExhaustedException];
    - [dags/core/conversion/memory_to_memory.py]: [MemoryToMemoryConverter];
    - [dags/core/data_formats/records_list_generator.py];
    - [dags/modules/core/pipes/static.py] and
      [dags/modules/core/external/static.py]: [extract_dataframe];
    - [basis/modules/core/functions/accumulator.py]: [dataframe_accumulator].

    Python objects are modelled by explicit state passing: the metadata
    database, the open sessions and a journal of session events form a
    [World]; a call that may raise returns a [PyResult]. *)

From stdpp Require Import gmap strings list fin_maps.

Set Default Proof Using "Type".

(** ** Python exceptions *)

(** The exception classes that occur in the modelled sources, with Python's
    built-in hierarchy above them. *)
Inductive ExcClass :=
  | BaseException
  | KeyboardInterrupt
  | SystemExit
  | GeneratorExit
  | Exception
  | AssertionError
  | TypeError
  | ValueError
  | LookupError
  | KeyError
  | RuntimeError
  | NotImplementedError
  | PipeException
  | InputExhaustedException.

#[global] Instance ExcClass_eq_dec : EqDecision ExcClass.
Proof. solve_decision. Defined.

(** The direct base class; [class PipeException(Exception)] and
    [class InputExhaustedException(PipeException)] are from [pipe.py]. *)
Definition base_class (c : ExcClass) : option ExcClass :=
  match c with
  | BaseException => None
  | KeyboardInterrupt | SystemExit | GeneratorExit | Exception => Some BaseException
  | AssertionError | TypeError | ValueError | LookupError | RuntimeError
  | PipeException => Some Exception
  | KeyError => Some LookupError
  | NotImplementedError => Some RuntimeError
  | InputExhaustedException => Some PipeException
  end.

Fixpoint issubclass_upto (fuel : nat) (c d : ExcClass) : bool :=
  if decide (c = d) then true
  else match fuel with
       | O => false
       | S fuel' =>
           match base_class c with
           | Some b => issubclass_upto fuel' b d
           | None => false
           end
       end.

(** The hierarchy is four levels deep. *)
Definition issubclass (c d : ExcClass) : bool := issubclass_upto 4 c d.

Record PyExc := mkExc { exc_class : ExcClass; exc_args : string }.

#[global] Instance PyExc_eq_dec : EqDecision PyExc.
Proof. solve_decision. Defined.

Definition isinstance (e : PyExc) (c : ExcClass) : bool :=
  issubclass (exc_class e) c.

(** The outcome of a Python call: it returns a value or raises. *)
Inductive PyResult (A : Type) :=
  | Returned (a : A)
  | Raised (e : PyExc).
Arguments Returned {A} a.
Arguments Raised {A} e.

(** ** The metadata store and its sessions *)

(** What happens to a session, in order. [Ran s n] is the node [n] run by
    the execution manager built on session [s]. *)
Inductive Event (Node : Type) :=
  | Opened (s : nat)
  | Ran (s : nat) (n : Node)
  | Committed (s : nat)
  | RolledBack (s : nat)
  | Closed (s : nat).
Arguments Opened {Node} s.
Arguments Ran {Node} s n.
Arguments Committed {Node} s.
Arguments RolledBack {Node} s.
Arguments Closed {Node} s.

Section Engine.

(** Rows of the metadata database (blocks, stored blocks, logs), graph
    nodes, graphs, storages and data blocks are objects of modules outside
    the modelled sources. *)
Context {Row Node Graph Storage DataBlock : Type}.
Context `{EqDecision Node}.

(** The database as seen by the engine: the committed rows, the sessions
    that are open with the rows each has pending, the next session
    identity, and the journal. *)
Record World := mkWorld {
  committed : list Row;
  sessions : gmap nat (list Row);
  next_session : nat;
  journal : list (Event Node)
}.

(** [self.Session()] *)
Definition Session (w : World) : nat * World :=
  let s := next_session w in
  (s, {| committed := committed w;
         sessions := <[s := []]> (sessions w);
         next_session := S s;
         journal := journal w ++ [Opened s] |}).

(** Work done through a session stays pending in it. *)
Definition session_add (s : nat) (rows : list Row) (w : World) : World :=
  {| committed := committed w;
     sessions := alter (λ p, p ++ rows) s (sessions w);
     next_session := next_session w;
     journal := journal w |}.

Definition log (evs : list (Event Node)) (w : World) : World :=
  {| committed := committed w;
     sessions := sessions w;
     next_session := next_session w;
     journal := journal w ++ evs |}.

(** [session.commit()]: the pending rows become committed. *)
Definition session_commit (s : nat) (w : World) : World :=
  {| committed := committed w ++ default [] (sessions w !! s);
     sessions := alter (λ _, []) s (sessions w);
     next_session := next_session w;
     journal := journal w ++ [Committed s] |}.

(** [session.rollback()]: the pending rows are dropped. *)
Definition session_rollback (s : nat) (w : World) : World :=
  {| committed := committed w;
     sessions := alter (λ _, []) s (sessions w);
     next_session := next_session w;
     journal := journal w ++ [RolledBack s] |}.

(** [session.close()]: a transaction still in progress ends without
    being committed and the handle is released. *)
Definition session_close (s : nat) (w : World) : World :=
  {| committed := committed w;
     sessions := delete s (sessions w);
     next_session := next_session w;
     journal := journal w ++ [Closed s] |}.

(** What the body of a [with] block does with the session it was given:
    the events it causes, the rows it leaves pending and how it ends. *)
Record Work (A : Type) := mkWork {
  work_trace : list (Event Node);
  work_rows : list Row;
  work_result : PyResult A
}.
Arguments mkWork {A} _ _ _.
Arguments work_trace {A} _.
Arguments work_rows {A} _.
Arguments work_result {A} _.

Definition do_work {A} (s : nat) (wk : Work A) (w : World) : World :=
  session_add s (work_rows wk) (log (work_trace wk) w).

(** [Environment.session_scope]:
<<
    session = self.Session(kwargs)
    try:
        yield session
        session.commit()
    except Exception as e:
        session.rollback()
        raise e
    finally:
        session.close()
>>
    The body sees the session and the committed rows. *)
Definition session_scope {A} (body : nat → list Row → Work A) (w : World)
    : PyResult A * World :=
  let '(session, w1) := Session w in
  let wk := body session (committed w1) in
  let w2 := do_work session wk w1 in
  match work_result wk with
  | Returned a => (Returned a, session_close session (session_commit session w2))
  | Raised e =>
      if isinstance e Exception
      then (Raised e, session_close session (session_rollback session w2))
      else (Raised e, session_close session w2)
  end.

Record Environment := mkEnv {
  storages : list Storage;
  local_memory_storage : Storage
}.

Record ExecutionContext := mkCtx {
  ctx_graph : Graph;
  ctx_env : Environment;
  metadata_session : nat;
  ctx_storages : list Storage;
  target_storage : option Storage;
  ctx_local_memory_storage : Storage
}.

(** [Environment.get_execution_context]: the target storage defaults to
    the first storage of the environment. *)
Definition get_execution_context (self : Environment) (graph : Graph)
    (session : nat) (target : option Storage) : ExecutionContext :=
  let target :=
    match target with
    | Some t => Some t
    | None => head (storages self)
    end in
  {| ctx_graph := graph;
     ctx_env := self;
     metadata_session := session;
     ctx_storages := storages self;
     target_storage := target;
     ctx_local_memory_storage := local_memory_storage self |}.

Record ExecutionManager := mkEM { em_ctx : ExecutionContext }.

(** [Environment.execution]:
<<
    session = self.Session()
    ec = self.get_execution_context(graph, session, target_storage=...)
    em = ExecutionManager(ec)
    try:
        yield em
        session.commit()
    except Exception as e:
        session.rollback()
        raise e
    finally:
        session.close()
>> *)
Definition execution {A} (self : Environment) (graph : Graph)
    (target : option Storage)
    (body : ExecutionManager → list Row → Work A) (w : World)
    : PyResult A * World :=
  let '(session, w1) := Session w in
  let ec := get_execution_context self graph session target in
  let em := mkEM ec in
  let wk := body em (committed w1) in
  let w2 := do_work session wk w1 in
  match work_result wk with
  | Returned a => (Returned a, session_close session (session_commit session w2))
  | Raised e =>
      if isinstance e Exception
      then (Raised e, session_close session (session_rollback session w2))
      else (Raised e, session_close session w2)
  end.

(** *** produce *)

(** [graph.get_any_node], [graph.get_flattened_graph],
    [get_all_upstream_dependencies_in_execution_order] (module
    [dags.core.graph]) and [ExecutionManager.run] (module
    [dags.core.runnable]) are called by [produce] and defined outside the
    modelled sources. A run reads the committed rows and the execution
    manager, leaves rows pending in the session of the manager, and
    returns the last output block or raises. *)
Variable get_any_node : Graph → string → PyResult Node.
Variable get_flattened_graph : Graph → Graph.
Variable get_all_upstream_dependencies_in_execution_order :
  Graph → Node → list Node.
Variable run :
  ExecutionManager → Node → bool → list Row →
  list Row * PyResult (option DataBlock).

(** [em.run(dep, to_exhaustion=to_exhaustion)] as the body of the
    [with self.execution(...) as em] block. *)
Definition em_run (dep : Node) (to_exhaustion : bool)
    (em : ExecutionManager) (db : list Row) : Work (option DataBlock) :=
  let '(rows, r) := run em dep to_exhaustion db in
  mkWork [Ran (metadata_session (em_ctx em)) dep] rows r.

(**
<<
    output = None
    for dep in dependencies:
        with self.execution(graph, execution_kwargs) as em:
            output = em.run(dep, to_exhaustion=to_exhaustion)
    return output
>> *)
Fixpoint produce_loop (self : Environment) (graph : Graph)
    (to_exhaustion : bool) (target : option Storage)
    (dependencies : list Node) (output : option DataBlock) (w : World)
    : PyResult (option DataBlock) * World :=
  match dependencies with
  | [] => (Returned output, w)
  | dep :: rest =>
      match execution self graph target (em_run dep to_exhaustion) w with
      | (Returned out, w') =>
          produce_loop self graph to_exhaustion target rest out w'
      | (Raised e, w') => (Raised e, w')
      end
  end.

(** [Environment.produce]: [node_like] is a node or the key of one. *)
Definition produce (self : Environment) (graph : Graph)
    (node_like : Node + string) (to_exhaustion : bool)
    (target : option Storage) (w : World)
    : PyResult (option DataBlock) * World :=
  let node :=
    match node_like with
    | inl n => Returned n
    | inr name => get_any_node graph name
    end in
  match node with
  | Raised e => (Raised e, w)
  | Returned node =>
      let dependencies :=
        get_all_upstream_dependencies_in_execution_order
          (get_flattened_graph graph) node in
      produce_loop self graph to_exhaustion target dependencies None w
  end.

(** *** The scope of one session *)

(** The events of a scope on session [s] whose body caused [trace] and
    ended with [r]. *)
Definition scope_events {A} (s : nat) (trace : list (Event Node))
    (r : PyResult A) : list (Event Node) :=
  [Opened s] ++ trace ++
  match r with
  | Returned _ => [Committed s]
  | Raised e => if isinstance e Exception then [RolledBack s] else []
  end ++ [Closed s].

(** The world after a scope whose body did [wk]. *)
Definition after_scope {A} (wk : Work A) (w : World) : World :=
  let s := next_session w in
  {| committed :=
       match work_result wk with
       | Returned _ => committed w ++ work_rows wk
       | Raised _ => committed w
       end;
     sessions := delete s (sessions w);
     next_session := S s;
     journal := journal w ++ scope_events s (work_trace wk) (work_result wk) |}.

(** *** What a call of produce leaves in the journal *)

(** The scope of a node whose run returned. *)
Fixpoint committed_scopes (s : nat) (deps : list Node) : list (Event Node) :=
  match deps with
  | [] => []
  | dep :: rest =>
      [Opened s; Ran s dep; Committed s; Closed s] ++ committed_scopes (S s) rest
  end.

(** The nodes that were run, in the order of the journal. *)
Fixpoint ran_nodes (evs : list (Event Node)) : list Node :=
  match evs with
  | [] => []
  | Ran _ n :: rest => n :: ran_nodes rest
  | _ :: rest => ran_nodes rest
  end.

(** The execution manager that [execution] builds on session [s]. *)
Definition manager (self : Environment) (graph : Graph)
    (target : option Storage) (s : nat) : ExecutionManager :=
  mkEM (get_execution_context self graph s target).

(** [Runs s db nodes rowss outs]: run one after the other, the first on
    session [s] over the committed rows [db] and each next one on the next
    session over what the earlier ones committed, the runs of [nodes] all
    return; [rowss] are the rows each leaves and [outs] their outputs. *)
Inductive Runs (self : Environment) (graph : Graph) (to_exhaustion : bool)
    (target : option Storage)
    : nat → list Row → list Node → list (list Row) →
      list (option DataBlock) → Prop :=
  | Runs_nil s db : Runs self graph to_exhaustion target s db [] [] []
  | Runs_cons s db dep rest rows out rowss outs :
      run (manager self graph target s) dep to_exhaustion db
        = (rows, Returned out) →
      Runs self graph to_exhaustion target (S s) (db ++ rows) rest rowss outs →
      Runs self graph to_exhaustion target s db (dep :: rest)
        (rows :: rowss) (out :: outs).

(** Modelled from the spec: the list that
    [get_all_upstream_dependencies_in_execution_order] (module
    [dags.core.graph], outside the modelled sources) returns is the
    transitive upstream dependency closure of the node in topological order,
    each node after all its upstream dependencies. [up m] are the direct
    upstream nodes of [m] in the flattened graph; [seen] are the nodes
    already listed. The requested node comes last. *)
Fixpoint upstream_listed_before (up : Node → list Node) (seen l : list Node)
    : bool :=
  match l with
  | [] => true
  | m :: rest =>
      forallb (λ u, bool_decide (u ∈ seen)) (up m)
      && bool_decide (m ∉ seen)
      && upstream_listed_before up (seen ++ [m]) rest
  end.

Definition is_execution_order (up : Node → list Node) (node : Node)
    (l : list Node) : bool :=
  upstream_listed_before up [] l && bool_decide (last l = Some node).

(** [node_like] resolved as [produce] does it. *)
Definition resolve_node (graph : Graph) (node_like : Node + string)
    : PyResult Node :=
  match node_like with
  | inl n => Returned n
  | inr name => get_any_node graph name
  end.

(** The sessions a call opened are the consecutive ones from the next
    session of the world it started in, and none of them is still open. *)
Definition released (w w' : World) (n : nat) : Prop :=
  next_session w' = next_session w + n ∧
  ∀ i, sessions w' !! i =
       if decide (next_session w ≤ i < next_session w + n) then None
       else sessions w !! i.

(** What a scope must have done by the time it exits, for a body that did
    [wk] from the world [w]: [res] is the result of the scope and the world
    it leaves. *)
Definition scope_discipline {A} (w : World) (wk : Work A)
    (res : PyResult A * World) : Prop :=
  let s := next_session w in
  res.1 = work_result wk ∧
  match work_result wk with
  | Returned _ =>
      committed res.2 = committed w ++ work_rows wk ∧
      journal res.2
        = journal w ++ [Opened s] ++ work_trace wk ++ [Committed s; Closed s]
  | Raised e =>
      committed res.2 = committed w ∧
      journal res.2
        = journal w ++ [Opened s] ++ work_trace wk
            ++ (if isinstance e Exception then [RolledBack s] else [])
            ++ [Closed s]
  end ∧
  sessions res.2 !! s = None ∧
  sessions res.2 = delete s (sessions w).

End Engine.

Arguments mkWork {Row Node A} _ _ _.
Arguments work_trace {Row Node A} _.
Arguments work_rows {Row Node A} _.
Arguments work_result {Row Node A} _.

(** ** A pipeline of three nodes

    A concrete graph on which the statements about [produce] are
    exercised: [source] feeds [clean], which feeds [report]. Nodes are
    their keys, rows are strings, blocks are numbered. *)
Module Pipeline3.

Definition upstream (n : string) : list string :=
  if decide (n = "report") then ["clean"]
  else if decide (n = "clean") then ["source"]
  else [].

Definition get_any_node (g : unit) (name : string) : PyResult string :=
  if bool_decide (name ∈ ["source"; "clean"; "report"]) then Returned name
  else Raised (mkExc KeyError name).

Definition get_flattened_graph (g : unit) : unit := g.

(** The upstream closure of a node of the chain, sources first. *)
Definition execution_order (g : unit) (n : string) : list string :=
  if decide (n = "report") then ["source"; "clean"; "report"]
  else if decide (n = "clean") then ["source"; "clean"]
  else [n].

(** Every run leaves one row that names the node and returns a block
    numbered by the rows committed before it. *)
Definition run_ok (em : @ExecutionManager unit string) (n : string)
    (to_exhaustion : bool) (db : list string)
    : list string * PyResult (option nat) :=
  ([n], Returned (Some (length db))).

(** The same, but the run of [clean] raises after leaving its row
    pending. *)
Definition run_clean_fails (em : @ExecutionManager unit string) (n : string)
    (to_exhaustion : bool) (db : list string)
    : list string * PyResult (option nat) :=
  if decide (n = "clean")
  then ([n], Raised (mkExc ValueError "bad input"))
  else ([n], Returned (Some (length db))).

Definition env : @Environment string :=
  {| storages := ["memory://local"]; local_memory_storage := "memory://local" |}.

Definition empty_world : @World string string :=
  {| committed := []; sessions := ∅; next_session := 0; journal := [] |}.

End Pipeline3.

(** ** Python values and tabular data *)

(** The scalar values that occur in records, in dataframe cells and in
    the state of a node. *)
Inductive PyVal :=
  | VNone
  | VNaN
  | VBool (b : bool)
  | VInt (n : Z)
  | VStr (s : string).

#[global] Instance PyVal_eq_dec : EqDecision PyVal.
Proof. solve_decision. Defined.

(** Python's truth value, as [if value:] tests it. *)
Definition truthy (v : PyVal) : bool :=
  match v with
  | VNone => false
  | VNaN => true
  | VBool b => b
  | VInt n => negb (n =? 0)%Z
  | VStr s => negb (String.eqb s "")
  end.

(** [RecordsList = List[Dict[str, Any]]]: a row format, one dict per row. *)
Abbreviation RecordsList := (list (gmap string PyVal)).

(** A pandas [DataFrame], the columnar format: the column labels in order,
    the values of each column, and the length of the index. *)
Record DataFrame := mkFrame {
  df_names : list string;
  df_cols : gmap string (list PyVal);
  df_nrows : nat
}.

#[global] Instance DataFrame_eq_dec : EqDecision DataFrame.
Proof. solve_decision. Defined.

(** A frame is rectangular: its labels are distinct, it has a column for
    each label and no other, and every column is as long as the index. *)
Definition df_wf (df : DataFrame) : Prop :=
  NoDup (df_names df)
  ∧ dom (df_cols df) = list_to_set (df_names df)
  ∧ map_Forall (λ _ c, length c = df_nrows df) (df_cols df).

(** [ObjectType]: a named record type with its fields in order, as
    [create_quick_otype(name, fields, unique_on, module_key)] of the tests
    builds it. *)
Record ObjectType := mkOType {
  otype_name : string;
  otype_fields : list (string * string);
  unique_on : list string;
  module_key : string
}.

Definition field_names (otype : ObjectType) : list string :=
  (otype_fields otype).*1.

(** A records list has a schema when every record has exactly its
    fields. *)
Definition records_have (otype : ObjectType) (records : RecordsList) : Prop :=
  Forall (λ r : gmap string PyVal, dom r = list_to_set (field_names otype))
    records.

(** A frame has a schema when its columns are the fields, in order. *)
Definition frame_has (otype : ObjectType) (df : DataFrame) : Prop :=
  df_wf df ∧ df_names df = field_names otype.

Module pandas.

(** The cell of a column at a position of the index; a position the
    column does not have reads as missing. *)
Definition cell (i : nat) (c : list PyVal) : PyVal := default VNaN (c !! i).

(** The row at a position of the index, as a dict. *)
Definition row (df : DataFrame) (i : nat) : gmap string PyVal :=
  cell i <$> df_cols df.

(** [df.to_dict(orient="records")] *)
Definition to_records (df : DataFrame) : RecordsList :=
  row df <$> seq 0 (df_nrows df).

(** The column of a label in a list of records; a record without the
    label has a missing value there. *)
Definition column_of (records : RecordsList) (f : string) : list PyVal :=
  (λ r : gmap string PyVal, default VNaN (r !! f)) <$> records.

(** [DataFrame(records, columns=names)] *)
Definition from_records (records : RecordsList) (names : list string)
    : DataFrame :=
  {| df_names := names;
     df_cols := list_to_map ((λ f, (f, column_of records f)) <$> names);
     df_nrows := length records |}.

(** The column of a label in a frame, filled with missing values when
    the frame does not have the label. *)
Definition column_or_missing (df : DataFrame) (f : string) : list PyVal :=
  default (replicate (df_nrows df) VNaN) (df_cols df !! f).

(** [df.append(other)]: the rows of [other] below those of [df], over the
    columns of [df] followed by those only [other] has. *)
Definition append (df other : DataFrame) : DataFrame :=
  let names :=
    df_names df ++ filter (λ f, f ∉ df_names df) (df_names other) in
  {| df_names := names;
     df_cols :=
       list_to_map
         ((λ f, (f, column_or_missing df f ++ column_or_missing other f))
            <$> names);
     df_nrows := df_nrows df + df_nrows other |}.

(** [concat(frames)]: the frames below one another; pandas raises
    [ValueError] when there is none. *)
Definition concat (frames : list DataFrame) : PyResult DataFrame :=
  match frames with
  | [] => Raised (mkExc ValueError "No objects to concatenate")
  | df :: rest => Returned (foldl append df rest)
  end.

End pandas.

(** Modelled from the spec: [dataframe_to_records_list] and
    [records_list_to_dataframe] of [dags.utils.pandas] are outside the
    modelled sources. The spec calls them inverse converters between the
    row format and the columnar format that keep rows, columns and values;
    the frame gets the fields of the schema as its columns and the records
    get one entry per column. *)
Module utils_pandas.

Definition dataframe_to_records_list (df : DataFrame)
    (otype : option ObjectType) : RecordsList :=
  pandas.to_records df.

Definition records_list_to_dataframe (records : RecordsList)
    (otype : ObjectType) : DataFrame :=
  pandas.from_records records (field_names otype).

End utils_pandas.

(** ** Data formats and storage formats *)

(** The memory data formats that [memory_to_memory.py] imports from
    [dags.core.data_formats], and the table reference of [pipe.py]. *)
Inductive DataFormat :=
  | DataFrameFormat
  | RecordsListFormat
  | RecordsListGeneratorFormat
  | DataFrameGeneratorFormat
  | DatabaseTableRefFormat.

#[global] Instance DataFormat_eq_dec : EqDecision DataFormat.
Proof. solve_decision. Defined.

Definition DataFormat_to_nat (f : DataFormat) : nat :=
  match f with
  | DataFrameFormat => 0
  | RecordsListFormat => 1
  | RecordsListGeneratorFormat => 2
  | DataFrameGeneratorFormat => 3
  | DatabaseTableRefFormat => 4
  end.

Definition DataFormat_of_nat (n : nat) : DataFormat :=
  match n with
  | 0 => DataFrameFormat
  | 1 => RecordsListFormat
  | 2 => RecordsListGeneratorFormat
  | 3 => DataFrameGeneratorFormat
  | _ => DatabaseTableRefFormat
  end.

#[global] Instance DataFormat_countable : Countable DataFormat.
Proof.
  apply (inj_countable' DataFormat_to_nat DataFormat_of_nat). by intros [].
Defined.

(** Modelled from the spec: a format is streaming-capable if it exposes a
    single-pass, pull-based iterator rather than a fully materialized
    value; these are the two generator formats. *)
Definition is_streaming (f : DataFormat) : bool :=
  match f with
  | RecordsListGeneratorFormat | DataFrameGeneratorFormat => true
  | _ => false
  end.

Inductive StorageType :=
  | DICT_MEMORY
  | DATABASE_TABLE
  | LOCAL_FILE.

#[global] Instance StorageType_eq_dec : EqDecision StorageType.
Proof. solve_decision. Defined.

(** [StorageFormat(storage_type, data_format)]: a node of the conversion
    graph. *)
Record StorageFormat := mkStorageFormat {
  storage_type : StorageType;
  sf_data_format : DataFormat
}.

#[global] Instance StorageFormat_eq_dec : EqDecision StorageFormat.
Proof. solve_decision. Defined.

(** [ConversionCostLevel]: the levels a converter can declare; only
    [MEMORY] occurs in the modelled sources. *)
Inductive ConversionCostLevel :=
  | NO_OP
  | MEMORY
  | DISK
  | OVER_WIRE.

#[global] Instance ConversionCostLevel_eq_dec : EqDecision ConversionCostLevel.
Proof. solve_decision. Defined.

(** What a stored block holds in memory. A generator is the sequence of
    chunks it yields; [get_generator()] of a [ReusableGenerator] starts a
    new pass over them. *)
Inductive RecordsObject :=
  | ODataFrame (df : DataFrame)
  | ORecordsList (records : RecordsList)
  | ORecordsListGenerator (chunks : list RecordsList)
  | ODataFrameGenerator (chunks : list DataFrame).

Definition get_generator {A} (chunks : list A) : list A := chunks.

(** [LocalMemoryDataRecords.from_records_object] wraps the object with
    its format. *)
Record LocalMemoryDataRecords := mkLDR {
  ldr_data_format : DataFormat;
  records_object : RecordsObject
}.

Definition from_records_object (obj : RecordsObject) : LocalMemoryDataRecords :=
  {| ldr_data_format :=
       match obj with
       | ODataFrame _ => DataFrameFormat
       | ORecordsList _ => RecordsListFormat
       | ORecordsListGenerator _ => RecordsListGeneratorFormat
       | ODataFrameGenerator _ => DataFrameGeneratorFormat
       end;
     records_object := obj |}.

(** [StoredDataBlockMetadata]: one replica of a block, in a storage and a
    data format. *)
Record StoredDataBlockMetadata := mkSDB {
  data_block_id : string;
  storage_url : string;
  data_format : DataFormat;
  realized_otype : ObjectType
}.

(** Modelled from the spec: the storage backend contract is
    [write(blockId, format, data)], [read(Replica)] and
    [exists(blockId, format)], and a replica is the materialization of a
    block in one (storage, format) pair; [LocalMemoryStorageEngine] of
    [dags.core.storage.storage] is outside the modelled sources. The
    memory of all local storages maps (storage, block, format) to the
    records held there. *)
Abbreviation Memory := (gmap (string * string * DataFormat) LocalMemoryDataRecords).

Definition replica_key (sdb : StoredDataBlockMetadata)
    : string * string * DataFormat :=
  (storage_url sdb, data_block_id sdb, data_format sdb).

Definition get_local_memory_data_records (mem : Memory)
    (sdb : StoredDataBlockMetadata) : PyResult LocalMemoryDataRecords :=
  match mem !! replica_key sdb with
  | Some ldr => Returned ldr
  | None => Raised (mkExc KeyError (data_block_id sdb))
  end.

Definition store_local_memory_data_records (sdb : StoredDataBlockMetadata)
    (ldr : LocalMemoryDataRecords) (mem : Memory) : Memory :=
  <[replica_key sdb := ldr]> mem.

(** ** MemoryToMemoryConverter *)
Module MemoryToMemoryConverter.

Definition supported_input_formats : list StorageFormat :=
  [ mkStorageFormat DICT_MEMORY DataFrameFormat;
    mkStorageFormat DICT_MEMORY RecordsListFormat;
    mkStorageFormat DICT_MEMORY RecordsListGeneratorFormat;
    mkStorageFormat DICT_MEMORY DataFrameGeneratorFormat ].

Definition supported_output_formats : list StorageFormat :=
  [ mkStorageFormat DICT_MEMORY RecordsListFormat;
    mkStorageFormat DICT_MEMORY DataFrameFormat ].

Definition cost_level : ConversionCostLevel := MEMORY.

(** Modelled from the spec: registering a converter adds an edge from
    each of its inputs to each of its outputs, weighted by its cost. *)
Definition edges : list (StorageFormat * StorageFormat) :=
  i ← supported_input_formats; o ← supported_output_formats; [(i, o)].

Definition edge_cost (e : StorageFormat * StorageFormat) : ConversionCostLevel :=
  cost_level.

Definition dataframe_to_records_list (input_object : DataFrame)
    (otype : ObjectType) : RecordsList :=
  utils_pandas.dataframe_to_records_list input_object (Some otype).

Definition records_list_to_dataframe (input_object : RecordsList)
    (otype : ObjectType) : DataFrame :=
  utils_pandas.records_list_to_dataframe input_object otype.

(**
<<
      all_ = []
      for dl in input_object.get_generator():
          all_.extend(dl)
      return all_
>> *)
Definition records_list_generator_to_records_list
    (input_object : list RecordsList) (otype : ObjectType) : RecordsList :=
  foldl (λ all_ dl, all_ ++ dl) [] (get_generator input_object).

Definition records_list_generator_to_dataframe
    (input_object : list RecordsList) (otype : ObjectType) : DataFrame :=
  records_list_to_dataframe
    (records_list_generator_to_records_list input_object otype) otype.

(**
<<
      all_ = []
      for dl in input_object.get_generator():
          all_.append(dl)
      return concat(all_)
>> *)
Definition dataframe_generator_to_dataframe
    (input_object : list DataFrame) (otype : ObjectType) : PyResult DataFrame :=
  pandas.concat (foldl (λ all_ dl, all_ ++ [dl]) [] (get_generator input_object)).

Definition dataframe_generator_to_records_list
    (input_object : list DataFrame) (otype : ObjectType) : PyResult RecordsList :=
  match dataframe_generator_to_dataframe input_object otype with
  | Returned df => Returned (dataframe_to_records_list df otype)
  | Raised e => Raised e
  end.

(** The [lookup] dict of [_convert], applied to the records object: a
    pair of formats that is no key of the dict gives [None]; an object
    that is not of the input format makes the converter function raise. *)
Definition lookup (formats : DataFormat * DataFormat)
    : option (RecordsObject → ObjectType → PyResult RecordsObject) :=
  let wrong := Raised (mkExc TypeError "records object") in
  match formats with
  | (DataFrameFormat, RecordsListFormat) =>
      Some (λ obj otype,
        match obj with
        | ODataFrame df => Returned (ORecordsList (dataframe_to_records_list df otype))
        | _ => wrong
        end)
  | (RecordsListFormat, DataFrameFormat) =>
      Some (λ obj otype,
        match obj with
        | ORecordsList rl => Returned (ODataFrame (records_list_to_dataframe rl otype))
        | _ => wrong
        end)
  | (RecordsListGeneratorFormat, DataFrameFormat) =>
      Some (λ obj otype,
        match obj with
        | ORecordsListGenerator g =>
            Returned (ODataFrame (records_list_generator_to_dataframe g otype))
        | _ => wrong
        end)
  | (RecordsListGeneratorFormat, RecordsListFormat) =>
      Some (λ obj otype,
        match obj with
        | ORecordsListGenerator g =>
            Returned (ORecordsList (records_list_generator_to_records_list g otype))
        | _ => wrong
        end)
  | (DataFrameGeneratorFormat, DataFrameFormat) =>
      Some (λ obj otype,
        match obj with
        | ODataFrameGenerator g =>
            match dataframe_generator_to_dataframe g otype with
            | Returned df => Returned (ODataFrame df)
            | Raised e => Raised e
            end
        | _ => wrong
        end)
  | (DataFrameGeneratorFormat, RecordsListFormat) =>
      Some (λ obj otype,
        match obj with
        | ODataFrameGenerator g =>
            match dataframe_generator_to_records_list g otype with
            | Returned rl => Returned (ORecordsList rl)
            | Raised e => Raised e
            end
        | _ => wrong
        end)
  | _ => None
  end.

(** [MemoryToMemoryConverter._convert]: read the records of the input
    replica, convert them by the function the two formats select, and
    store the result as the output replica. The dict access and the call
    are inside [try: ... except KeyError: raise NotImplementedError(...)]:
    a pair of formats without a function raises [NotImplementedError], and
    so does a [KeyError] from the function. *)
Definition _convert (input_sdb output_sdb : StoredDataBlockMetadata)
    (mem : Memory) : PyResult StoredDataBlockMetadata * Memory :=
  match get_local_memory_data_records mem input_sdb with
  | Raised e => (Raised e, mem)
  | Returned input_ldr =>
      match lookup (data_format input_sdb, data_format output_sdb) with
      | None => (Raised (mkExc NotImplementedError "formats"), mem)
      | Some convert =>
          match convert (records_object input_ldr) (realized_otype input_sdb) with
          | Raised e =>
              if isinstance e KeyError
              then (Raised (mkExc NotImplementedError "formats"), mem)
              else (Raised e, mem)
          | Returned output_records_object =>
              let output_ldr := from_records_object output_records_object in
              (Returned output_sdb,
               store_local_memory_data_records output_sdb output_ldr mem)
          end
      end
  end.

End MemoryToMemoryConverter.

(** ** Pipes *)

(** [ObjectSchemaLike = Union[ObjectSchema, str]]; a configuration may
    leave it out. *)
Inductive ObjectSchemaLike :=
  | SchemaKey (key : string)
  | SchemaObject (otype : ObjectType).

Definition schema_truthy (schema : option ObjectSchemaLike) : bool :=
  match schema with
  | None => false
  | Some (SchemaKey key) => negb (String.eqb key "")
  | Some (SchemaObject _) => true
  end.

(** Modelled from the spec: the execution-context argument of a pipe gives
    access to the state and the configuration of its node ([PipeContext]
    of [dags.core.runnable] is outside the modelled sources). The state is
    a dict that outlives the invocation; a value that was never emitted
    reads as [None]. *)
Record PipeContext (Config : Type) := mkPipeContext {
  state : gmap string PyVal;
  config : Config;
  output_schema : option ObjectSchemaLike
}.
Arguments mkPipeContext {Config} _ _ _.
Arguments state {Config} _.
Arguments config {Config} _.
Arguments output_schema {Config} _.

Definition get_state_value {Config} (ctx : PipeContext Config) (key : string)
    : PyVal :=
  default VNone (state ctx !! key).

Definition emit_state_value {Config} (key : string) (new_value : PyVal)
    (ctx : PipeContext Config) : PipeContext Config :=
  {| state := <[key := new_value]> (state ctx);
     config := config ctx;
     output_schema := output_schema ctx |}.

Definition set_output_schema {Config} (schema : option ObjectSchemaLike)
    (ctx : PipeContext Config) : PipeContext Config :=
  {| state := state ctx;
     config := config ctx;
     output_schema := schema |}.

(** [dags/modules/core/pipes/static.py] *)
Module pipes_static.

Record ExtractDataFrameConfig := mkConfig {
  dataframe : DataFrame;
  schema : option ObjectSchemaLike
}.

(**
<<
      extracted = ctx.get_state_value("extracted")
      if extracted:
          # Just emit once
          return
      ctx.emit_state_value("extracted", True)
      schema = ctx.get_config_value("schema")
      if schema:
          ctx.set_output_schema(schema)
      return ctx.get_config_value("dataframe")
>> *)
Definition extract_dataframe (ctx : PipeContext ExtractDataFrameConfig)
    : option DataFrame * PipeContext ExtractDataFrameConfig :=
  let extracted := get_state_value ctx "extracted" in
  if truthy extracted then (None, ctx)
  else
    let ctx := emit_state_value "extracted" (VBool true) ctx in
    let schema := schema (config ctx) in
    let ctx := if schema_truthy schema then set_output_schema schema ctx else ctx in
    (Some (dataframe (config ctx)), ctx).

End pipes_static.

(** [dags/modules/core/external/static.py] *)
Module external_static.

Record DataFrameResourceConfig := mkConfig {
  dataframe : DataFrame;
  otype : option ObjectSchemaLike
}.

(**
<<
      extracted = ctx.get_state_value("extracted")
      if extracted:
          # Just emit once
          return
      ctx.emit_state_value("extracted", True)
      return ctx.get_config_value("dataframe")
>> *)
Definition extract_dataframe (ctx : PipeContext DataFrameResourceConfig)
    : option DataFrame * PipeContext DataFrameResourceConfig :=
  let extracted := get_state_value ctx "extracted" in
  if truthy extracted then (None, ctx)
  else
    let ctx := emit_state_value "extracted" (VBool true) ctx in
    (Some (dataframe (config ctx)), ctx).

End external_static.

(** A pipe invoked again and again on the state the last invocation
    left: the outputs in order, and the final context. *)
Fixpoint invocations {Ctx Out} (pipe : Ctx → option Out * Ctx) (n : nat)
    (ctx : Ctx) : list (option Out) * Ctx :=
  match n with
  | O => ([], ctx)
  | S n' =>
      let '(out, ctx1) := pipe ctx in
      let '(outs, ctx2) := invocations pipe n' ctx1 in
      (out :: outs, ctx2)
  end.

(** *** Outcomes and the exhaustion loop *)

(** Modelled from the spec: a pipe invocation returns one of
    [Produced(value)], [Exhausted] or [Failed(error)]. *)
Inductive Outcome (V : Type) :=
  | Produced (value : V)
  | Exhausted
  | Failed (error : PyExc).
Arguments Produced {V} value.
Arguments Exhausted {V}.
Arguments Failed {V} error.

(** Modelled from the spec: the tag of what a call of the pipe did. The
    code signals that there is no more input by raising
    [InputExhaustedException]; any other exception is a failure; a call
    that returns produced its value. *)
Definition outcome_of {V} (r : PyResult V) : Outcome V :=
  match r with
  | Returned v => Produced v
  | Raised e =>
      if isinstance e InputExhaustedException then Exhausted else Failed e
  end.

(** Modelled from the spec: the run of a node to exhaustion (the loop of
    [ExecutionManager.run], module [dags.core.runnable], is outside the
    modelled sources). On [Produced] a block is registered and, if
    [to_exhaustion] is set and the pipe is repeatable, the pipe is invoked
    again; the loop ends normally on [Exhausted] and when nothing is
    produced, and a failure is raised. [fuel] bounds the invocations. *)
Fixpoint run_to_exhaustion {Ctx V} (invoke : Ctx → PyResult (option V) * Ctx)
    (to_exhaustion repeatable : bool) (fuel : nat) (ctx : Ctx)
    : PyResult (list V) * Ctx :=
  match fuel with
  | O => (Returned [], ctx)
  | S fuel' =>
      let '(r, ctx1) := invoke ctx in
      match outcome_of r with
      | Produced (Some v) =>
          if to_exhaustion && repeatable then
            match run_to_exhaustion invoke to_exhaustion repeatable fuel' ctx1 with
            | (Returned blocks, ctx2) => (Returned (v :: blocks), ctx2)
            | (Raised e, ctx2) => (Raised e, ctx2)
            end
          else (Returned [v], ctx1)
      | Produced None => (Returned [], ctx1)
      | Exhausted => (Returned [], ctx1)
      | Failed e => (Raised e, ctx1)
      end
  end.

(** A pipe that does not raise, as an invocation. *)
Definition returning {Ctx V} (pipe : Ctx → option V * Ctx) (ctx : Ctx)
    : PyResult (option V) * Ctx :=
  (Returned (pipe ctx).1, (pipe ctx).2).

(** *** The accumulator *)

(** [basis/modules/core/functions/accumulator.py]; [as_dataframe] of
    [DataBlock] is outside the modelled sources.
<<
      records = input.as_dataframe()
      if this is not None:
          previous = this.as_dataframe()
          records = previous.append(records)
      return records
>> *)
Definition dataframe_accumulator {DataBlock : Type}
    (as_dataframe : DataBlock → DataFrame)
    (input : DataBlock) (this : option DataBlock) : DataFrame :=
  let records := as_dataframe input in
  match this with
  | Some this =>
      let previous := as_dataframe this in
      pandas.append previous records
  | None => records
  end.

(** *** Schema inference for a records list generator *)
Module RecordsListGeneratorFormat.

(** [RecordsListGeneratorFormat.infer_otype_from_records];
    [get_records_list_sample] of [dags.core.data_formats] returns a sample
    or [None], and [infer_otype_from_records_list] is of
    [dags.core.typing.inference]: both are outside the modelled sources.
<<
      dl = get_records_list_sample(records)
      if dl is None:
          raise ValueError("Empty records object")
      inferred_otype = infer_otype_from_records_list(dl)
      return inferred_otype
>> *)
Definition infer_otype_from_records
    (get_records_list_sample : list RecordsList → option RecordsList)
    (infer_otype_from_records_list : RecordsList → PyResult ObjectType)
    (records : list RecordsList) : PyResult ObjectType :=
  let dl := get_records_list_sample records in
  match dl with
  | None => Raised (mkExc ValueError "Empty records object")
  | Some dl =>
      let inferred_otype := infer_otype_from_records_list dl in
      inferred_otype
  end.

(** A sample helper that draws the first chunk the generator yields. *)
Definition first_chunk (records : list RecordsList) : option RecordsList :=
  head (get_generator records).

(** An inference that names the fields of the first record. *)
Definition fields_of_first (dl : RecordsList) : PyResult ObjectType :=
  Returned
    {| otype_name := "Inferred";
       otype_fields :=
         (λ f, (f, "Unicode")) <$> elements (dom (default ∅ (head dl)));
       unique_on := [];
       module_key := "" |}.

End RecordsListGeneratorFormat.

(** ** Sample data

    The frame and the records of [test_dataframe_to_records_list]
    ([DataFrame({"a": range(10), "b": range(10)})]), and the blocks of an
    accumulation: a first run with the rows 1 and 2, then new input with
    the row 3. *)
Module Samples.

Definition schema_ab : ObjectType :=
  {| otype_name := "TestAB";
     otype_fields := [("a", "Integer"); ("b", "Integer")];
     unique_on := [];
     module_key := "_test" |}.

Definition frame_ab : DataFrame :=
  {| df_names := ["a"; "b"];
     df_cols := {[ "a" := VInt <$> seqZ 0 10; "b" := VInt <$> seqZ 0 10 ]};
     df_nrows := 10 |}.

Definition records_ab : RecordsList :=
  (λ i, {[ "a" := VInt i; "b" := VInt i ]}) <$> seqZ 0 10.

Definition schema_x : ObjectType :=
  {| otype_name := "X";
     otype_fields := [("x", "Integer")];
     unique_on := [];
     module_key := "_test" |}.

Definition frame_x (values : list Z) : DataFrame :=
  {| df_names := ["x"];
     df_cols := {[ "x" := VInt <$> values ]};
     df_nrows := length values |}.

Definition replica (block : string) (format : DataFormat)
    : StoredDataBlockMetadata :=
  {| data_block_id := block;
     storage_url := "memory://local";
     data_format := format;
     realized_otype := schema_ab |}.

Definition memory_ab : Memory :=
  {[ replica_key (replica "block1" DataFrameFormat)
       := from_records_object (ODataFrame frame_ab) ]}.

End Samples.

(** What it is for a pipe to emit its configured frame once: from a
    context whose flag [extracted] is not set (never emitted, or holding a
    false value) one invocation sets the flag and returns the frame, any
    further ones return nothing, and the run to exhaustion yields the one
    block; from a context whose flag is set every invocation returns
    nothing and leaves the context as it is. *)
Definition emits_once {Config}
    (pipe : PipeContext Config → option DataFrame * PipeContext Config)
    (configured : Config → DataFrame) (ctx : PipeContext Config) : Prop :=
  let df := configured (config ctx) in
  if truthy (get_state_value ctx "extracted") then
    pipe ctx = (None, ctx)
    ∧ (∀ n, invocations pipe n ctx = (replicate n None, ctx))
    ∧ (∀ fuel, (run_to_exhaustion (returning pipe) true true fuel ctx).1
               = Returned [])
  else
    (pipe ctx).1 = Some df
    ∧ state (pipe ctx).2 = <["extracted" := VBool true]> (state ctx)
    ∧ config (pipe ctx).2 = config ctx
    ∧ (∀ n, (invocations pipe (S n) ctx).1 = Some df :: replicate n None)
    ∧ (∀ fuel, (run_to_exhaustion (returning pipe) true true (S fuel) ctx).1
               = Returned [df]).

(** The work of a node run to exhaustion inside its scope: the blocks
    the loop registered leave their rows pending in the session. *)
Definition exhaustion_work {Row Node Ctx V}
    (invoke : Ctx → PyResult (option V) * Ctx)
    (to_exhaustion repeatable : bool) (fuel : nat) (ctx : Ctx)
    (rows_of : list V → list Row) : @Work Row Node (list V) :=
  let r := (run_to_exhaustion invoke to_exhaustion repeatable fuel ctx).1 in
  mkWork []
    match r with
    | Returned blocks => rows_of blocks
    | Raised _ => []
    end
    r.

(** The results of [n] successive invocations, each on the context the
    one before left, and the context after the last. *)
Fixpoint invoked {Ctx V} (invoke : Ctx → PyResult (option V) * Ctx) (n : nat)
    (ctx : Ctx) : list (PyResult (option V)) * Ctx :=
  match n with
  | O => ([], ctx)
  | S n' =>
      let '(r, ctx1) := invoke ctx in
      let '(rs, ctx2) := invoked invoke n' ctx1 in
      (r :: rs, ctx2)
  end.

(** A repeatable pipe over a counter: it produces the counter twice and
    then signals that its input is exhausted. *)
Definition two_then_exhausted (n : nat) : PyResult (option nat) * nat :=
  if decide (n < 2) then (Returned (Some n), S n)
  else (Raised (mkExc InputExhaustedException "no more input"), n).

(** A repeatable pipe over a counter that produces the counter once and
    then fails. *)
Definition one_then_fails (n : nat) : PyResult (option nat) * nat :=
  if decide (n < 1) then (Returned (Some n), S n)
  else (Raised (mkExc ValueError "bad input"), n).

(** ** Other entry points of the environment *)

Section EnvironmentCallers.

Context {Row Node Graph Storage Runtime DataBlock : Type}.

(** [graph.get_flattened_root_node_for_declared_node] and
    [graph.get_all_nodes_in_execution_order] are of [dags.core.graph], like
    the other graph functions that [produce] calls. *)
Variable get_any_node : Graph → string → PyResult Node.
Variable get_flattened_graph : Graph → Graph.
Variable get_flattened_root_node_for_declared_node : Graph → Node → Node.
Variable get_all_nodes_in_execution_order : Graph → list Node.
Variable run :
  @ExecutionManager Graph Storage → Node → bool → list Row →
  list Row * PyResult (option DataBlock).

(** [Environment.run_node]:
<<
    if isinstance(node_like, str):
        node_like = graph.get_any_node(node_like)
    flattened_node = graph.get_flattened_graph()
        .get_flattened_root_node_for_declared_node(node_like)
    with self.execution(graph, execution_kwargs) as em:
        return em.run(flattened_node, to_exhaustion=to_exhaustion)
>> *)
Definition run_node (self : @Environment Storage) (graph : Graph)
    (node_like : Node + string) (to_exhaustion : bool)
    (target : option Storage) (w : @World Row Node)
    : PyResult (option DataBlock) * @World Row Node :=
  let node_like :=
    match node_like with
    | inl n => Returned n
    | inr name => get_any_node graph name
    end in
  match node_like with
  | Raised e => (Raised e, w)
  | Returned node_like =>
      let flattened_node :=
        get_flattened_root_node_for_declared_node
          (get_flattened_graph graph) node_like in
      execution self graph target (em_run run flattened_node to_exhaustion) w
  end.

(**
<<
    for node in nodes:
        with self.execution(graph, execution_kwargs) as em:
            em.run(node, to_exhaustion=to_exhaustion)
>> *)
Fixpoint run_graph_loop (self : @Environment Storage) (graph : Graph)
    (to_exhaustion : bool) (target : option Storage) (nodes : list Node)
    (w : @World Row Node) : PyResult unit * @World Row Node :=
  match nodes with
  | [] => (Returned tt, w)
  | node :: rest =>
      match execution self graph target (em_run run node to_exhaustion) w with
      | (Returned _, w') =>
          run_graph_loop self graph to_exhaustion target rest w'
      | (Raised e, w') => (Raised e, w')
      end
  end.

(** [Environment.run_graph] *)
Definition run_graph (self : @Environment Storage) (graph : Graph)
    (to_exhaustion : bool) (target : option Storage) (w : @World Row Node)
    : PyResult unit * @World Row Node :=
  let nodes := get_all_nodes_in_execution_order (get_flattened_graph graph) in
  run_graph_loop self graph to_exhaustion target nodes w.

(** [Environment.get_new_metadata_session]: the new session is appended
    to [self._metadata_sessions], here [tracked].
<<
    sess = self.Session()
    self._metadata_sessions.append(sess)
    return sess
>> *)
Definition get_new_metadata_session (tracked : list nat) (w : @World Row Node)
    : nat * list nat * @World Row Node :=
  let '(sess, w1) := Session w in
  (sess, tracked ++ [sess], w1).

(** [Environment.close_sessions]:
<<
    for s in self._metadata_sessions:
        s.close()
    self._metadata_sessions = []
>> *)
Definition close_sessions (tracked : list nat) (w : @World Row Node)
    : list nat * @World Row Node :=
  ([], foldl (λ w s, session_close s w) w tracked).

(** What [add_storage] is given: a url, a storage, or something else. *)
Inductive StorageLike :=
  | StorageUrl (url : string)
  | StorageObject (storage : Storage)
  | StorageOther.

(** [Storage.from_url] and [Runtime.from_storage] are of
    [dags.core.storage.storage] and [dags.core.runtime]; the second raises
    [ValueError] for a storage that no runtime goes with. *)
Variable Storage_from_url : string → PyResult Storage.
Variable Runtime_from_storage : Storage → PyResult Runtime.

(** [Environment.add_storage], on the storages of the environment and its
    runtimes:
<<
    if isinstance(storage_like, str):
        sr = Storage.from_url(storage_like)
    elif isinstance(storage_like, Storage):
        sr = storage_like
    else:
        raise TypeError
    self.storages.append(sr)
    if add_runtime:
        try:
            rt = Runtime.from_storage(sr)
            self.runtimes.append(rt)
        except ValueError:
            pass
    return sr
>> *)
Definition add_storage (self : @Environment Storage) (runtimes : list Runtime)
    (storage_like : StorageLike) (add_runtime : bool)
    : PyResult Storage * @Environment Storage * list Runtime :=
  let sr :=
    match storage_like with
    | StorageUrl url => Storage_from_url url
    | StorageObject storage => Returned storage
    | StorageOther => Raised (mkExc TypeError "")
    end in
  match sr with
  | Raised e => (Raised e, self, runtimes)
  | Returned sr =>
      let self' :=
        {| storages := storages self ++ [sr];
           local_memory_storage := local_memory_storage self |} in
      if add_runtime then
        match Runtime_from_storage sr with
        | Returned rt => (Returned sr, self', runtimes ++ [rt])
        | Raised e =>
            if isinstance e ValueError then (Returned sr, self', runtimes)
            else (Raised e, self', runtimes)
        end
      else (Returned sr, self', runtimes)
  end.

End EnvironmentCallers.

Arguments StorageUrl {Storage} url.
Arguments StorageObject {Storage} storage.
Arguments StorageOther {Storage}.

(** Storages and runtimes of a small environment: a storage is its url,
    a runtime is named after the storage it goes with, and only database
    urls have one. *)
Module EnvSamples.

Definition Storage_from_url (url : string) : PyResult string :=
  if String.prefix "memory://" url || String.prefix "sqlite://" url
  then Returned url
  else Raised (mkExc ValueError url).

Definition Runtime_from_storage (storage : string) : PyResult string :=
  if String.prefix "sqlite://" storage then Returned storage
  else Raised (mkExc ValueError storage).

Definition all_nodes (g : unit) : list string := ["source"; "clean"; "report"].

Definition flattened_root (g : unit) (n : string) : string := n.

End EnvSamples.

(** ** Pipes as objects: [dags/core/pipe.py] *)

Inductive RuntimeClass :=
  | PYTHON
  | DATABASE.

#[global] Instance RuntimeClass_eq_dec : EqDecision RuntimeClass.
Proof. solve_decision. Defined.

(** [str.lower()] on the letters A to Z. *)
Definition lower_ascii (c : Ascii.ascii) : Ascii.ascii :=
  let n := Ascii.nat_of_ascii c in
  if Nat.leb 65 n && Nat.leb n 90 then Ascii.ascii_of_nat (n + 32) else c.

Fixpoint lower (s : string) : string :=
  match s with
  | EmptyString => EmptyString
  | String c s' => String (lower_ascii c) (lower s')
  end.

(** [needle in hay] for strings. *)
Fixpoint contains (needle hay : string) : bool :=
  String.prefix needle hay
  || match hay with
     | EmptyString => false
     | String _ hay' => contains needle hay'
     end.

(**
<<
    if runtime is None:
        return RuntimeClass.PYTHON
    if (
        "ql" in runtime.lower()
        or "database" in runtime.lower()
        or "postgre" in runtime.lower()
    ):
        return RuntimeClass.DATABASE
    return RuntimeClass.PYTHON
>> *)
Definition get_runtime_class (runtime : option string) : RuntimeClass :=
  match runtime with
  | None => PYTHON
  | Some runtime =>
      if contains "ql" (lower runtime)
         || contains "database" (lower runtime)
         || contains "postgre" (lower runtime)
      then DATABASE
      else PYTHON
  end.

(** [DagsModule], as far as pipes use it: its name. *)
Record DagsModule := mkModule { dm_name : string }.

Module Pipes.

Section PipeObjects.

(** [Obj] are the classes given as [config_class] and [state_class] and
    any other keyword value; [Annotation] is [PipeAnnotation] of
    [dags.core.pipe_interface]. *)
Context {Obj Annotation : Type}.

(** Modelled from the spec: a pipe declares named input slots and an
    output slot, and the resolver flags whether the pipe needs an
    execution-context argument ([PipeInterface] of
    [dags.core.pipe_interface] is outside the modelled sources). *)
Record PipeInterface := mkInterface {
  inputs : list Annotation;
  output : option Annotation;
  requires_pipe_context : bool
}.

(** A callable given as a pipe, by the attributes that [pipe.py] looks
    at: [name], [__name__], the name of its class, and [get_interface]
    with what it returns. *)
Record PipeCallable := mkCallable {
  attr_name : option string;
  attr_dunder_name : option string;
  class_name : string;
  attr_get_interface : option (option PipeInterface)
}.

(** [make_pipe_name]: every object has a class, so the final [raise] of
    the source is not reached.
<<
    if hasattr(pipe, "name"):
        return pipe.name
    if hasattr(pipe, "__name__"):
        return pipe.__name__
    if hasattr(pipe, "__class__"):
        return pipe.__class__.__name__
>> *)
Definition make_pipe_name (pipe : PipeCallable) : string :=
  match attr_name pipe with
  | Some n => n
  | None =>
      match attr_dunder_name pipe with
      | Some n => n
      | None => class_name pipe
      end
  end.

(** The frozen dataclass [Pipe]. *)
Record Pipe := mkPipe {
  name : string;
  module_name : string;
  pipe_callable : option PipeCallable;
  compatible_runtime_classes : list RuntimeClass;
  config_class : option Obj;
  state_class : option Obj;
  declared_inputs : option (list (string * string));
  declared_output : option string
}.

(** [Pipe.key] *)
Definition key (self : Pipe) : string :=
  let k := name self in
  if negb (String.eqb (module_name self) "")
  then module_name self +:+ "." +:+ k
  else k.

(** [Pipe(name=..., ..., **kwargs)]: the dataclass has two more fields,
    [config_class] and [state_class]; any other keyword makes the
    constructor raise [TypeError]. A keyword given as [None] is the
    default. *)
Definition Pipe_init (name module_name : string)
    (pipe_callable : option PipeCallable)
    (compatible_runtime_classes : list RuntimeClass)
    (declared_inputs : option (list (string * string)))
    (declared_output : option string)
    (kwargs : gmap string (option Obj)) : PyResult Pipe :=
  if bool_decide (dom kwargs ⊆ ({[ "config_class"; "state_class" ]} : gset string))
  then
    Returned
      {| name := name;
         module_name := module_name;
         pipe_callable := pipe_callable;
         compatible_runtime_classes := compatible_runtime_classes;
         config_class := default None (kwargs !! "config_class");
         state_class := default None (kwargs !! "state_class");
         declared_inputs := declared_inputs;
         declared_output := declared_output |}
  else Raised (mkExc TypeError "unexpected keyword argument").

Variable DEFAULT_LOCAL_MODULE : DagsModule.

(** [pipe_factory]; a bare [raise] with no exception being handled is a
    [RuntimeError].
<<
    if name is None:
        if pipe_callable is None:
            raise
        name = make_pipe_name(pipe_callable)
    runtime_class = get_runtime_class(compatible_runtimes)
    if module is None:
        module = DEFAULT_LOCAL_MODULE
    if isinstance(module, DagsModule):
        module_name = module.name
    else:
        module_name = module
    return Pipe(name=name, module_name=module_name,
                pipe_callable=pipe_callable,
                compatible_runtime_classes=[runtime_class],
                declared_inputs=inputs, declared_output=output, **kwargs)
>> *)
Definition pipe_factory (pipe_callable : option PipeCallable)
    (name : option string) (module : option (DagsModule + string))
    (compatible_runtimes : option string)
    (inputs : option (list (string * string))) (output : option string)
    (kwargs : gmap string (option Obj)) : PyResult Pipe :=
  let name :=
    match name with
    | Some n => Returned n
    | None =>
        match pipe_callable with
        | None => Raised (mkExc RuntimeError "No active exception to reraise")
        | Some c => Returned (make_pipe_name c)
        end
    end in
  match name with
  | Raised e => Raised e
  | Returned name =>
      let runtime_class := get_runtime_class compatible_runtimes in
      let module := default (inl DEFAULT_LOCAL_MODULE) module in
      let module_name :=
        match module with
        | inl m => dm_name m
        | inr s => s
        end in
      Pipe_init name module_name pipe_callable [runtime_class] inputs output
        kwargs
  end.

(** The first argument of [pipe]: a name, nothing, or the callable. *)
Inductive PipeOrName :=
  | GivenName (s : string)
  | GivenNothing
  | GivenCallable (c : PipeCallable).

(** [partial(pipe, module=..., name=..., ...)]: the keywords it holds. *)
Record PipePartial := mkPartial {
  bound_module : option (DagsModule + string);
  bound_name : option string;
  bound_compatible_runtimes : option string;
  bound_config_class : option Obj;
  bound_state_class : option Obj;
  bound_inputs : option (list (string * string));
  bound_output : option string
}.

(** [pipe], the decorator:
<<
    if isinstance(pipe_or_name, str) or pipe_or_name is None:
        return partial(pipe, module=module, name=pipe_or_name,
                       compatible_runtimes=compatible_runtimes,
                       config_class=config_class, state_class=state_class,
                       inputs=inputs, output=output)
    return pipe_factory(pipe_or_name, name=name, module=module,
                        compatible_runtimes=compatible_runtimes,
                        config_class=config_class, state_class=state_class,
                        inputs=inputs, output=output)
>> *)
Definition pipe (pipe_or_name : PipeOrName) (name : option string)
    (module : option (DagsModule + string))
    (compatible_runtimes : option string)
    (config_class state_class : option Obj)
    (inputs : option (list (string * string))) (output : option string)
    : PyResult (Pipe + PipePartial) :=
  let bound n :=
    {| bound_module := module;
       bound_name := n;
       bound_compatible_runtimes := compatible_runtimes;
       bound_config_class := config_class;
       bound_state_class := state_class;
       bound_inputs := inputs;
       bound_output := output |} in
  match pipe_or_name with
  | GivenName s => Returned (inr (bound (Some s)))
  | GivenNothing => Returned (inr (bound None))
  | GivenCallable c =>
      match pipe_factory (Some c) name module compatible_runtimes inputs output
              {[ "config_class" := config_class; "state_class" := state_class ]}
      with
      | Returned p => Returned (inl p)
      | Raised e => Raised e
      end
  end.

(** Calling the partial with one positional argument. *)
Definition call_partial (partial : PipePartial) (pipe_or_name : PipeOrName)
    : PyResult (Pipe + PipePartial) :=
  pipe pipe_or_name (bound_name partial) (bound_module partial)
    (bound_compatible_runtimes partial) (bound_config_class partial)
    (bound_state_class partial) (bound_inputs partial) (bound_output partial).

(** [make_pipe(pipe_like, **kwargs)], with the keywords that
    [pipe_factory] names and the others. *)
Definition make_pipe (pipe_like : Pipe + PipeCallable) (name : option string)
    (module : option (DagsModule + string))
    (compatible_runtimes : option string)
    (inputs : option (list (string * string))) (output : option string)
    (kwargs : gmap string (option Obj)) : PyResult Pipe :=
  match pipe_like with
  | inl p => Returned p
  | inr c =>
      pipe_factory (Some c) name module compatible_runtimes inputs output kwargs
  end.

(** An element of the list given to [pipe_chain]. *)
Inductive ChainItem :=
  | ItemName (s : string)
  | ItemPipe (p : Pipe)
  | ItemCallable (c : PipeCallable)
  | ItemOther.

(** The values of the keywords [sub_graph] and [is_composite]. *)
Variable obj_of_pipes : list Pipe → Obj.
Variable obj_of_bool : bool → Obj.

(** The loop of [pipe_chain] over the list, from the pipes collected so
    far.
<<
    for fn in pipe_chain:
        if isinstance(fn, str):
            raise NotImplementedError(...)
        elif isinstance(fn, Pipe):
            p = fn
        elif callable(fn):
            p = make_pipe(fn, **kwargs)
        else:
            raise TypeError(...)
        sub_funcs.append(p)
>> *)
Fixpoint chain_pipes (items : list ChainItem)
    (module : option (DagsModule + string))
    (compatible_runtimes : option string)
    (inputs : option (list (string * string))) (output : option string)
    (kwargs : gmap string (option Obj)) (sub_funcs : list Pipe)
    : PyResult (list Pipe) :=
  match items with
  | [] => Returned sub_funcs
  | fn :: rest =>
      let p :=
        match fn with
        | ItemName _ =>
            Raised (mkExc NotImplementedError
                      "Please specify explicit pipe objects in a pipe chain")
        | ItemPipe p => Returned p
        | ItemCallable c =>
            make_pipe (inr c) None module compatible_runtimes inputs output
              kwargs
        | ItemOther => Raised (mkExc TypeError "Invalid pipe name in chain")
        end in
      match p with
      | Raised e => Raised e
      | Returned p =>
          chain_pipes rest module compatible_runtimes inputs output kwargs
            (sub_funcs ++ [p])
      end
  end.

(** [pipe_chain(name, pipe_chain, **kwargs)]: after the loop,
<<
    return pipe_factory(
        None, name=name, sub_graph=sub_funcs, is_composite=True, **kwargs
    )
>> *)
Definition pipe_chain (name : string) (items : list ChainItem)
    (module : option (DagsModule + string))
    (compatible_runtimes : option string)
    (inputs : option (list (string * string))) (output : option string)
    (kwargs : gmap string (option Obj)) : PyResult Pipe :=
  match chain_pipes items module compatible_runtimes inputs output kwargs [] with
  | Raised e => Raised e
  | Returned sub_funcs =>
      pipe_factory None (Some name) module compatible_runtimes inputs output
        (<["sub_graph" := Some (obj_of_pipes sub_funcs)]>
           (<["is_composite" := Some (obj_of_bool true)]> kwargs))
  end.

(** [PipeInterface.from_pipe_definition] and
    [PipeAnnotation.from_type_annotation] are of
    [dags.core.pipe_interface]. *)
Variable from_pipe_definition : option PipeCallable → option PipeInterface.
Variable from_type_annotation : string → option string → Annotation.

(** [Pipe._get_pipe_interface] *)
Definition _get_pipe_interface (self : Pipe) : option PipeInterface :=
  match pipe_callable self with
  | Some c =>
      match attr_get_interface c with
      | Some found => found
      | None => from_pipe_definition (Some c)
      end
  | None => from_pipe_definition None
  end.

(** [Pipe._get_declared_interface]: [if self.declared_inputs:] and
    [if self.declared_output:] test for a dict and a string that are not
    empty. A new interface does not require the context. *)
Definition _get_declared_interface (self : Pipe) : PipeInterface :=
  let inputs :=
    match declared_inputs self with
    | Some items =>
        (λ item : string * string, from_type_annotation item.2 (Some item.1))
          <$> items
    | None => []
    end in
  let output :=
    match declared_output self with
    | Some annotation =>
        if negb (String.eqb annotation "")
        then Some (from_type_annotation annotation None)
        else None
    | None => None
    end in
  {| inputs := inputs; output := output; requires_pipe_context := false |}.

(** [Pipe.get_interface]:
<<
    found_dfi = self._get_pipe_interface(env)
    assert found_dfi is not None
    declared_dfi = self._get_declared_interface()
    declared_dfi.requires_pipe_context = found_dfi.requires_pipe_context
    if self.declared_output is not None or self.declared_inputs is not None:
        return declared_dfi
    return found_dfi
>> *)
Definition get_interface (self : Pipe) : PyResult PipeInterface :=
  match _get_pipe_interface self with
  | None => Raised (mkExc AssertionError "")
  | Some found_dfi =>
      let declared_dfi := _get_declared_interface self in
      let declared_dfi :=
        {| inputs := inputs declared_dfi;
           output := output declared_dfi;
           requires_pipe_context := requires_pipe_context found_dfi |} in
      match declared_output self, declared_inputs self with
      | None, None => Returned found_dfi
      | _, _ => Returned declared_dfi
      end
  end.

End PipeObjects.

Arguments PipeInterface : clear implicits.
Arguments PipeCallable : clear implicits.
Arguments Pipe : clear implicits.
Arguments PipePartial : clear implicits.
Arguments PipeOrName : clear implicits.
Arguments ChainItem : clear implicits.

End Pipes.

(** ** Kinds of records objects *)

(** The format that an object in memory is an instance of. *)
Definition object_format (obj : RecordsObject) : DataFormat :=
  match obj with
  | ODataFrame _ => DataFrameFormat
  | ORecordsList _ => RecordsListFormat
  | ORecordsListGenerator _ => RecordsListGeneratorFormat
  | ODataFrameGenerator _ => DataFrameGeneratorFormat
  end.

(** Every replica in memory holds an object of the format of the
    replica. *)
Definition memory_typed (mem : Memory) : Prop :=
  map_Forall
    (λ (k : string * string * DataFormat) ldr,
       object_format (records_object ldr) = k.2)
    mem.

(** Successive runs of the accumulator: the output of each run is the
    block that the next run gets as [this]. [block_of] stores a frame as
    a block. *)
Fixpoint accumulate {DataBlock : Type} (as_dataframe : DataBlock → DataFrame)
    (block_of : DataFrame → DataBlock) (inputs : list DataBlock)
    (this : option DataBlock) : option DataBlock :=
  match inputs with
  | [] => this
  | input :: rest =>
      accumulate as_dataframe block_of rest
        (Some (block_of (dataframe_accumulator as_dataframe input this)))
  end.

(** ** The static csv pipes *)

(** [extract_csv] of [dags/modules/core/pipes/static.py] and of
    [dags/modules/core/external/static.py]. [open_lines] is
    [open(path)] followed by [f.readlines()], and [read_csv] is of
    [dags.utils.data]; both may raise. Beside its result and the context
    it leaves, an invocation gives the paths it opened.
<<
    extracted = ctx.get_state_value("extracted")
    if extracted:
        # Static resource, if already emitted, return
        return
    path = ctx.get_config_value("path")
    with open(path) as f:
        records = read_csv(f.readlines())
    ctx.emit_state_value("extracted", True)
    return records
>> *)
Module static_csv.

Record ExtractLocalCSVConfig := mkPipeConfig {
  pipe_path : string;
  pipe_schema : option ObjectSchemaLike
}.

Record LocalCSVResourceConfig := mkResourceConfig {
  resource_path : string;
  resource_otype : option ObjectSchemaLike
}.

Section ExtractCsv.

Variable open_lines : string → PyResult (list string).
Variable read_csv : list string → PyResult RecordsList.

Definition extract_csv_from {Config} (path_of : Config → string)
    (ctx : PipeContext Config)
    : PyResult (option RecordsList) * PipeContext Config * list string :=
  let extracted := get_state_value ctx "extracted" in
  if truthy extracted then (Returned None, ctx, [])
  else
    let path := path_of (config ctx) in
    match open_lines path with
    | Raised e => (Raised e, ctx, [path])
    | Returned lines =>
        match read_csv lines with
        | Raised e => (Raised e, ctx, [path])
        | Returned records =>
            let ctx := emit_state_value "extracted" (VBool true) ctx in
            (Returned (Some records), ctx, [path])
        end
    end.

(** The pipe [extract_csv] of [pipes/static.py]. *)
Definition pipes_extract_csv (ctx : PipeContext ExtractLocalCSVConfig) :=
  extract_csv_from pipe_path ctx.

(** The pipe [core.extract_csv] of [external/static.py]. *)
Definition external_extract_csv (ctx : PipeContext LocalCSVResourceConfig) :=
  extract_csv_from resource_path ctx.

End ExtractCsv.

(** A file system with one file, and a parser that keeps each line as
    the value of the field [line]. *)
Definition one_file (path : string) : PyResult (list string) :=
  if String.eqb path "data.csv" then Returned ["a"; "b"]
  else Raised (mkExc RuntimeError path).

Definition lines_as_records (lines : list string) : PyResult RecordsList :=
  Returned ((λ l, {[ "line" := VStr l ]}) <$> lines).

End static_csv.

(** * Properties *)

Section EngineProperties.

Context {Row Node Graph Storage DataBlock : Type}.
Context `{EqDecision Node}.
Local Abbreviation World := (@World Row Node).
Local Abbreviation Work := (@Work Row Node).
Local Abbreviation Environment := (@Environment Storage).
Local Abbreviation ExecutionManager := (@ExecutionManager Graph Storage).

Lemma scope_sessions (s : nat) (f g : list Row → list Row)
    (m : gmap nat (list Row)) :
  delete s (alter f s (alter g s (<[s := []]> m))) = delete s m.
Proof.
  apply map_eq; intros i. destruct (decide (i = s)) as [->|Hne].
  - by rewrite !lookup_delete_eq.
  - rewrite !lookup_delete_ne by done.
    rewrite !lookup_alter_ne by done. by rewrite lookup_insert_ne.
Qed.

Lemma scope_sessions_1 (s : nat) (g : list Row → list Row)
    (m : gmap nat (list Row)) :
  delete s (alter g s (<[s := []]> m)) = delete s m.
Proof.
  apply map_eq; intros i. destruct (decide (i = s)) as [->|Hne].
  - by rewrite !lookup_delete_eq.
  - rewrite !lookup_delete_ne by done.
    rewrite !lookup_alter_ne by done. by rewrite lookup_insert_ne.
Qed.

Lemma session_scope_spec {A} (body : nat → list Row → Work A) (w : World) :
  let wk := body (next_session w) (committed w) in
  session_scope body w = (work_result wk, after_scope wk w).
Proof.
  unfold session_scope, after_scope, scope_events, do_work; simpl.
  destruct (body _ _) as [tr rows [a|e]]; simpl.
  - f_equal. unfold session_close, session_commit; simpl.
    rewrite scope_sessions.
    rewrite lookup_alter_eq, lookup_insert_eq; simpl.
    by rewrite <- !app_assoc.
  - destruct (isinstance e Exception); f_equal;
      unfold session_close, session_rollback; simpl.
    + rewrite scope_sessions. by rewrite <- !app_assoc.
    + rewrite scope_sessions_1. by rewrite <- !app_assoc.
Qed.

Lemma execution_spec {A} (self : Environment) (graph : Graph)
    (target : option Storage)
    (body : ExecutionManager → list Row → Work A) (w : World) :
  let em := mkEM (get_execution_context self graph (next_session w) target) in
  let wk := body em (committed w) in
  execution self graph target body w = (work_result wk, after_scope wk w).
Proof.
  unfold execution, after_scope, scope_events, do_work; simpl.
  destruct (body _ _) as [tr rows [a|e]]; simpl.
  - f_equal. unfold session_close, session_commit; simpl.
    rewrite scope_sessions.
    rewrite lookup_alter_eq, lookup_insert_eq; simpl.
    by rewrite <- !app_assoc.
  - destruct (isinstance e Exception); f_equal;
      unfold session_close, session_rollback; simpl.
    + rewrite scope_sessions. by rewrite <- !app_assoc.
    + rewrite scope_sessions_1. by rewrite <- !app_assoc.
Qed.

Lemma after_scope_discipline {A} (wk : Work A) (w : World) :
  scope_discipline w wk (work_result wk, after_scope wk w).
Proof.
  unfold scope_discipline, after_scope, scope_events; simpl.
  split; [done|]. split.
  - destruct (work_result wk) as [a|e]; simpl; split; try done;
      by rewrite <- ?app_assoc.
  - split; [apply lookup_delete_eq | done].
Qed.

(** C2. Every scope opened by [Environment.execution] or
    [Environment.session_scope] commits the session when the enclosed work
    returns, rolls it back and raises the same exception again when the work
    raises (an [Exception] by an explicit [rollback()], anything else by the
    [close()] that ends the transaction without committing), and in both
    cases has closed the session when it exits: [Closed] is the last event
    of the scope and the session is no longer open. *)
Theorem scope_commits_or_rolls_back_then_closes {A B}
    (self : Environment) (graph : Graph) (target : option Storage)
    (body : ExecutionManager → list Row → Work A)
    (body' : nat → list Row → Work B) (w : World) :
  scope_discipline w
    (body (manager self graph target (next_session w)) (committed w))
    (execution self graph target body w)
  ∧ scope_discipline w
      (body' (next_session w) (committed w))
      (session_scope body' w).
Proof.
  split.
  - rewrite execution_spec. apply after_scope_discipline.
  - rewrite session_scope_spec. apply after_scope_discipline.
Qed.

(** *** produce *)

Variable get_any_node : Graph → string → PyResult Node.
Variable get_flattened_graph : Graph → Graph.
Variable get_all_upstream_dependencies_in_execution_order :
  Graph → Node → list Node.
Variable run :
  ExecutionManager → Node → bool → list Row →
  list Row * PyResult (option DataBlock).

Variable self : Environment.
Variable graph : Graph.
Variable to_exhaustion : bool.
Variable target : option Storage.

Local Abbreviation loop := (produce_loop run self graph to_exhaustion target).
Local Abbreviation runs := (Runs run self graph to_exhaustion target).

(** One turn of the loop of [produce], read off [execution]. *)
Lemma execution_em_run (dep : Node) (w : World) :
  let s := next_session w in
  let wk := em_run run dep to_exhaustion (manager self graph target s) (committed w) in
  execution self graph target (em_run run dep to_exhaustion) w
    = (work_result wk, after_scope wk w)
  ∧ work_trace wk = [Ran s dep]
  ∧ (work_rows wk, work_result wk)
      = run (manager self graph target s) dep to_exhaustion (committed w).
Proof.
  simpl. split; [apply execution_spec|].
  unfold em_run. by destruct (run _ _ _ _).
Qed.

Lemma released_refl (w : World) : released w w 0.
Proof.
  split; [lia|]. intros i. case_decide; [lia|done].
Qed.

Lemma released_step {A} (wk : Work A) (w w' : World) (n : nat) :
  released (after_scope wk w) w' n → released w w' (S n).
Proof.
  unfold released, after_scope; simpl. intros [Hn Hs]. split; [lia|].
  intros i. rewrite Hs. repeat case_decide; try lia; try done.
  - assert (i = next_session w) as -> by lia. apply lookup_delete_eq.
  - apply lookup_delete_ne. lia.
Qed.

(** While the runs return, the loop goes on: after the nodes of [done] the
    loop is at the rest of the list, in a world that holds what they
    committed. *)
Lemma loop_runs (done rest : list Node) (rowss : list (list Row))
    (outs : list (option DataBlock)) (out0 : option DataBlock) (w : World) :
  runs (next_session w) (committed w) done rowss outs →
  ∃ w1,
    loop (done ++ rest) out0 w = loop rest (default out0 (last outs)) w1
    ∧ committed w1 = committed w ++ concat rowss
    ∧ journal w1 = journal w ++ committed_scopes (next_session w) done
    ∧ released w w1 (length done).
Proof.
  intros Hr. remember (next_session w) as s eqn:Hs.
  remember (committed w) as db eqn:Hdb.
  revert out0 w Hs Hdb.
  induction Hr as [s db|s db dep done' rows out rowss outs Hrun Hr IH];
    intros out0 w Hs Hdb.
  - exists w. simpl. rewrite !app_nil_r. split_and!; try done.
    apply released_refl.
  - subst s db. simpl.
    destruct (execution_em_run dep w) as (Hex & Htr & Hrw).
    rewrite Hex. rewrite Hrun in Hrw.
    injection Hrw as Hrows Hres.
    set (wk := em_run run dep to_exhaustion _ _) in *.
    rewrite Hres.
    destruct (IH out (after_scope wk w)) as (w1 & Hloop & Hc & Hj & Hrel).
    { done. }
    { simpl. by rewrite Hres, Hrows. }
    exists w1. split_and!.
    + rewrite Hloop. f_equal. rewrite last_cons. by destruct (last outs).
    + rewrite Hc. simpl. by rewrite <- app_assoc.
    + rewrite Hj. simpl. unfold scope_events. rewrite Htr, Hres. simpl.
      by rewrite <- !app_assoc.
    + by apply (released_step wk).
Qed.

(** The runs of a list of nodes all return, or there is a first one that
    raises. *)
Lemma runs_or_first_failure (deps : list Node) (s : nat) (db : list Row) :
  (∃ rowss outs, runs s db deps rowss outs)
  ∨ (∃ done failed rest rowss outs rows e,
       deps = done ++ failed :: rest
       ∧ runs s db done rowss outs
       ∧ run (manager self graph target (s + length done)) failed
           to_exhaustion (db ++ concat rowss) = (rows, Raised e)).
Proof.
  revert s db. induction deps as [|dep deps IH]; intros s db.
  - left. exists [], []. constructor.
  - destruct (run (manager self graph target s) dep to_exhaustion db)
      as [rows [out|e]] eqn:Hrun.
    + destruct (IH (S s) (db ++ rows)) as
        [(rowss & outs & Hr)
        |(done & failed & rest & rowss & outs & rows' & e & -> & Hr & Hf)].
      * left. exists (rows :: rowss), (out :: outs). by econstructor.
      * right. exists (dep :: done), failed, rest, (rows :: rowss),
          (out :: outs), rows', e.
        split_and!; [done|by econstructor|].
        simpl. rewrite app_assoc.
        by replace (s + S (length done)) with (S s + length done) by lia.
    + right. exists [], dep, deps, [], [], rows, e.
      split_and!; [done|constructor|].
      simpl. by rewrite app_nil_r, Nat.add_0_r.
Qed.

Lemma runs_length (s : nat) (db : list Row) (deps : list Node)
    (rowss : list (list Row)) (outs : list (option DataBlock)) :
  runs s db deps rowss outs →
  length rowss = length deps ∧ length outs = length deps.
Proof.
  induction 1; simpl; [done|]. lia.
Qed.

(** The last output of runs that return is what the run of the last node
    returned. *)
Lemma runs_last (s : nat) (db : list Row) (init : list Node) (dep : Node)
    (rowss : list (list Row)) (outs : list (option DataBlock)) :
  runs s db (init ++ [dep]) rowss outs →
  ∃ rows out,
    last outs = Some out
    ∧ run (manager self graph target (s + length init)) dep to_exhaustion
        (db ++ concat (take (length init) rowss)) = (rows, Returned out).
Proof.
  revert s db rowss outs. induction init as [|d init IH];
    intros s db rowss outs Hr; simpl in *.
  - inversion Hr as [|? ? ? ? rows out rowss' outs' Hrun Hr']; subst.
    inversion Hr'; subst. exists rows, out.
    by rewrite Nat.add_0_r, app_nil_r.
  - inversion Hr as [|? ? ? ? rows out rowss' outs' Hrun Hr']; subst.
    destruct (IH _ _ _ _ Hr') as (rows' & out' & Hl & Hrun').
    exists rows', out'. split.
    + rewrite last_cons. by rewrite Hl.
    + simpl. rewrite app_assoc.
      by replace (s + S (length init)) with (S s + length init) by lia.
Qed.

Lemma ran_nodes_app (l1 l2 : list (Event Node)) :
  ran_nodes (l1 ++ l2) = ran_nodes l1 ++ ran_nodes l2.
Proof.
  induction l1 as [|[] l1 IH]; simpl; by rewrite ?IH.
Qed.

Lemma ran_nodes_committed_scopes (s : nat) (deps : list Node) :
  ran_nodes (committed_scopes s deps) = deps.
Proof.
  revert s. induction deps as [|d deps IH]; intros s; simpl; [done|].
  by rewrite IH.
Qed.

(** A call of [produce] for a node that resolves either returns, and
    then the runs of all the nodes of the list returned, or raises what
    the first failing run raised. *)
Lemma produce_returns_or_first_failure (node_like : Node + string)
    (node : Node) (w : World) :
  let deps :=
    get_all_upstream_dependencies_in_execution_order
      (get_flattened_graph graph) node in
  let result :=
    produce get_any_node get_flattened_graph
      get_all_upstream_dependencies_in_execution_order run
      self graph node_like to_exhaustion target w in
  resolve_node get_any_node graph node_like = Returned node →
  (∃ rowss outs,
     runs (next_session w) (committed w) deps rowss outs
     ∧ result.1 = Returned (default None (last outs)))
  ∨ (∃ done failed rest rowss outs rows e,
       deps = done ++ failed :: rest
       ∧ runs (next_session w) (committed w) done rowss outs
       ∧ run (manager self graph target (next_session w + length done))
           failed to_exhaustion (committed w ++ concat rowss)
         = (rows, Raised e)
       ∧ result.1 = Raised e).
Proof.
  intros deps result Hnode. unfold result, produce.
  unfold resolve_node in Hnode. rewrite Hnode. fold deps.
  destruct (runs_or_first_failure deps (next_session w) (committed w))
    as [(rowss & outs & Hr)
       |(done & failed & rest & rowss & outs & rows & e & Hsplit & Hr & Hf)].
  - left. exists rowss, outs. split; [done|].
    destruct (loop_runs deps [] rowss outs None w Hr) as (w1 & Hloop & _).
    rewrite app_nil_r in Hloop. by rewrite Hloop.
  - right. exists done, failed, rest, rowss, outs, rows, e.
    split_and!; try done.
    destruct (loop_runs done (failed :: rest) rowss outs None w Hr)
      as (w1 & Hloop & Hc & Hj & [Hn Hs]).
    rewrite Hsplit, Hloop. simpl.
    destruct (execution_em_run failed w1) as (Hex & _ & Hrw).
    rewrite <- Hn, <- Hc in Hf. rewrite Hex. rewrite Hf in Hrw.
    injection Hrw as _ Hres. by rewrite Hres.
Qed.

(** *** The execution order *)

Lemma upstream_listed_before_closed (up : Node → list Node)
    (seen l : list Node) :
  upstream_listed_before up seen l = true →
  ∀ l1 m l2, l = l1 ++ m :: l2 →
    (m ∉ seen ++ l1) ∧ ∀ u, u ∈ up m → u ∈ seen ++ l1.
Proof.
  revert seen. induction l as [|x l IH]; intros seen Hl l1 m l2 Heq.
  - by destruct l1.
  - simpl in Hl. apply andb_prop in Hl as [Hl Hrest].
    apply andb_prop in Hl as [Hup Hfresh].
    apply bool_decide_eq_true in Hfresh.
    destruct l1 as [|y l1]; simpl in Heq; injection Heq as -> ->.
    + rewrite app_nil_r. split; [done|]. intros u Hu.
      rewrite forallb_forall in Hup.
      apply list_elem_of_In, Hup in Hu. by apply bool_decide_eq_true in Hu.
    + destruct (IH _ Hrest l1 m l2 eq_refl) as [Hm Hu].
      rewrite <- app_assoc in Hm, Hu. done.
Qed.

(** A list in execution order for [node] ends with [node], lists no node
    twice, and holds every node from which [node] can be reached along
    upstream edges. *)
Lemma is_execution_order_closure (up : Node → list Node) (node : Node)
    (l : list Node) :
  is_execution_order up node l = true →
  ∃ init,
    l = init ++ [node]
    ∧ (node ∉ init)
    ∧ (∀ m, rtc (λ a b, a ∈ up b) m node → m ∈ l)
    ∧ (∀ l1 m l2 u, l = l1 ++ m :: l2 → u ∈ up m → u ∈ l1).
Proof.
  unfold is_execution_order. intros Hl.
  apply andb_prop in Hl as [Hl Hlast].
  apply bool_decide_eq_true in Hlast.
  apply last_Some in Hlast as [init ->].
  pose proof (upstream_listed_before_closed up [] _ Hl) as Hc.
  exists init. split_and!; [done| | |].
  - destruct (Hc init node [] eq_refl) as [Hn _]. done.
  - intros m Hm. revert m Hm. apply rtc_ind_l.
    + apply elem_of_app. right. by apply list_elem_of_singleton.
    + intros a b Hab Hbc IH.
      apply list_elem_of_split in IH as (l1 & l2 & Heq).
      destruct (Hc l1 b l2 Heq) as [_ Hu]. specialize (Hu a Hab).
      rewrite Heq. simpl in Hu. apply elem_of_app. by left.
  - intros l1 m l2 u Heq Hu. destruct (Hc l1 m l2 Heq) as [_ Hin].
    by apply Hin.
Qed.

(** C1. When [produce] returns, it has run every node of the list that
    [get_all_upstream_dependencies_in_execution_order] gives for the
    requested node, in the order of the list: every node from which the
    requested node is reached along upstream edges, each after the nodes
    upstream of it and the requested node last; each run is in a scope of
    its own on a fresh session that is opened, committed and closed before
    the next one is opened; and the value returned is the output of the run
    of the requested node, the last of the outputs (none when it produced
    nothing). *)
Theorem produce_runs_upstream_closure (up : Node → list Node)
    (node_like : Node + string) (node : Node) (w w' : World)
    (out : option DataBlock) :
  let deps :=
    get_all_upstream_dependencies_in_execution_order
      (get_flattened_graph graph) node in
  resolve_node get_any_node graph node_like = Returned node →
  is_execution_order up node deps = true →
  produce get_any_node get_flattened_graph
    get_all_upstream_dependencies_in_execution_order run
    self graph node_like to_exhaustion target w = (Returned out, w') →
  ∃ init rowss outs rows,
    deps = init ++ [node]
    ∧ (node ∉ init)
    ∧ (∀ m, rtc (λ a b, a ∈ up b) m node → m ∈ deps)
    ∧ (∀ l1 m l2 u, deps = l1 ++ m :: l2 → u ∈ up m → u ∈ l1)
    ∧ runs (next_session w) (committed w) deps rowss outs
    ∧ journal w' = journal w ++ committed_scopes (next_session w) deps
    ∧ ran_nodes (journal w') = ran_nodes (journal w) ++ deps
    ∧ committed w' = committed w ++ concat rowss
    ∧ released w w' (length deps)
    ∧ last outs = Some out
    ∧ run (manager self graph target (next_session w + length init)) node
        to_exhaustion (committed w ++ concat (take (length init) rowss))
      = (rows, Returned out).
Proof.
  intros deps Hnode Horder Hprod.
  destruct (is_execution_order_closure _ _ _ Horder)
    as (init & Hdeps & Hfresh & Hclos & Htopo).
  unfold produce in Hprod. unfold resolve_node in Hnode.
  rewrite Hnode in Hprod. fold deps in Hprod.
  destruct (runs_or_first_failure deps (next_session w) (committed w))
    as [(rowss & outs & Hr)
       |(done & failed & rest & rowss & outs & rows & e & Hsplit & Hr & Hf)].
  - destruct (loop_runs deps [] rowss outs None w Hr)
      as (w1 & Hloop & Hc & Hj & Hrel).
    rewrite app_nil_r in Hloop. rewrite Hloop in Hprod. simpl in Hprod.
    injection Hprod as Hout <-.
    pose proof Hr as Hr'. rewrite Hdeps in Hr'.
    destruct (runs_last _ _ _ _ _ _ Hr') as (rows & out' & Hlast & Hrun).
    rewrite Hlast in Hout. simpl in Hout. subst out'.
    exists init, rowss, outs, rows. split_and!; try done.
    rewrite Hj, ran_nodes_app. by rewrite ran_nodes_committed_scopes.
  - exfalso.
    destruct (loop_runs done (failed :: rest) rowss outs None w Hr)
      as (w1 & Hloop & Hc & Hj & [Hn Hs]).
    rewrite <- Hsplit in Hloop. rewrite Hloop in Hprod. simpl in Hprod.
    destruct (execution_em_run failed w1) as (Hex & _ & Hrw).
    rewrite <- Hn, <- Hc in Hf. rewrite Hex in Hprod. rewrite Hf in Hrw.
    injection Hrw as _ Hres. rewrite Hres in Hprod. done.
Qed.

(** C3. When the runs of the first nodes of the execution order return and
    the run of the next one raises, [produce] raises that exception to its
    caller; what the earlier nodes committed stays committed and the rows of
    the failing run are not; the scope of the failing node is rolled back
    and closed; and no later node is run. *)
Theorem produce_failure_keeps_earlier_commits
    (node_like : Node + string) (node : Node)
    (done : list Node) (failed : Node) (rest : list Node)
    (rowss : list (list Row)) (outs : list (option DataBlock))
    (rows : list Row) (e : PyExc) (w : World) :
  let s := next_session w + length done in
  resolve_node get_any_node graph node_like = Returned node →
  get_all_upstream_dependencies_in_execution_order
    (get_flattened_graph graph) node = done ++ failed :: rest →
  runs (next_session w) (committed w) done rowss outs →
  run (manager self graph target s) failed to_exhaustion
    (committed w ++ concat rowss) = (rows, Raised e) →
  ∃ w',
    produce get_any_node get_flattened_graph
      get_all_upstream_dependencies_in_execution_order run
      self graph node_like to_exhaustion target w = (Raised e, w')
    ∧ committed w' = committed w ++ concat rowss
    ∧ journal w'
      = journal w ++ committed_scopes (next_session w) done
          ++ [Opened s; Ran s failed]
          ++ (if isinstance e Exception then [RolledBack s] else [])
          ++ [Closed s]
    ∧ ran_nodes (journal w') = ran_nodes (journal w) ++ done ++ [failed]
    ∧ released w w' (S (length done)).
Proof.
  intros s Hnode Hdeps Hr Hf.
  unfold produce. unfold resolve_node in Hnode. rewrite Hnode, Hdeps.
  destruct (loop_runs done (failed :: rest) rowss outs None w Hr)
    as (w1 & Hloop & Hc & Hj & [Hn Hs]).
  rewrite Hloop. simpl.
  destruct (execution_em_run failed w1) as (Hex & Htr & Hrw).
  unfold s in Hf. rewrite <- Hn, <- Hc in Hf.
  rewrite Hex. rewrite Hf in Hrw.
  injection Hrw as Hrows Hres. rewrite Hres.
  eexists. split; [done|].
  assert (journal (after_scope
            (em_run run failed to_exhaustion
               (manager self graph target (next_session w1)) (committed w1)) w1)
          = journal w ++ committed_scopes (next_session w) done
              ++ [Opened s; Ran s failed]
              ++ (if isinstance e Exception then [RolledBack s] else [])
              ++ [Closed s]) as Hjournal.
  { simpl. unfold scope_events. rewrite Htr, Hres, Hj, Hn. fold s.
    simpl. by rewrite <- !app_assoc. }
  split_and!.
  - simpl. by rewrite Hres.
  - done.
  - rewrite Hjournal. rewrite !ran_nodes_app, ran_nodes_committed_scopes.
    simpl. by destruct (isinstance e Exception).
  - split; simpl; [lia|]. intros i. repeat case_decide.
    + destruct (decide (i = next_session w1)) as [->|Hne].
      * apply lookup_delete_eq.
      * rewrite lookup_delete_ne by done. rewrite Hs.
        case_decide; [done|lia].
    + rewrite lookup_delete_ne by lia. rewrite Hs.
      case_decide; [lia|done].
Qed.

End EngineProperties.

(** *** The pipeline of three nodes *)

Example produce_report_ok :
  (produce Pipeline3.get_any_node Pipeline3.get_flattened_graph
     Pipeline3.execution_order Pipeline3.run_ok Pipeline3.env tt
     (inr "report") true None Pipeline3.empty_world).1
  = Returned (Some 2).
Proof. reflexivity. Qed.

Example produce_report_journal :
  journal (produce Pipeline3.get_any_node Pipeline3.get_flattened_graph
     Pipeline3.execution_order Pipeline3.run_ok Pipeline3.env tt
     (inr "report") true None Pipeline3.empty_world).2
  = [Opened 0; Ran 0 "source"; Committed 0; Closed 0;
     Opened 1; Ran 1 "clean"; Committed 1; Closed 1;
     Opened 2; Ran 2 "report"; Committed 2; Closed 2].
Proof. reflexivity. Qed.

Lemma produce_runs_upstream_closure_witness :
  let w := Pipeline3.empty_world in
  let res :=
    produce Pipeline3.get_any_node Pipeline3.get_flattened_graph
      Pipeline3.execution_order Pipeline3.run_ok Pipeline3.env tt
      (inr "report") true None w in
  ∃ init rowss outs rows,
    Pipeline3.execution_order tt "report" = init ++ ["report"]
    ∧ ("report" ∉ init)
    ∧ (∀ m, rtc (λ a b, a ∈ Pipeline3.upstream b) m "report" →
         m ∈ Pipeline3.execution_order tt "report")
    ∧ (∀ l1 m l2 u,
         Pipeline3.execution_order tt "report" = l1 ++ m :: l2 →
         u ∈ Pipeline3.upstream m → u ∈ l1)
    ∧ Runs Pipeline3.run_ok Pipeline3.env tt true None 0 []
        (Pipeline3.execution_order tt "report") rowss outs
    ∧ journal res.2
      = journal w ++ committed_scopes 0 (Pipeline3.execution_order tt "report")
    ∧ ran_nodes (journal res.2)
      = ran_nodes (journal w) ++ Pipeline3.execution_order tt "report"
    ∧ committed res.2 = committed w ++ concat rowss
    ∧ released w res.2 (length (Pipeline3.execution_order tt "report"))
    ∧ last outs = Some (Some 2)
    ∧ Pipeline3.run_ok (manager Pipeline3.env tt None (0 + length init))
        "report" true ([] ++ concat (take (length init) rowss))
      = (rows, Returned (Some 2)).
Proof.
  intros w res.
  apply (produce_runs_upstream_closure
           Pipeline3.get_any_node Pipeline3.get_flattened_graph
           Pipeline3.execution_order Pipeline3.run_ok Pipeline3.env tt true
           None Pipeline3.upstream (inr "report") "report" w res.2 (Some 2)).
  - reflexivity.
  - reflexivity.
  - reflexivity.
Defined.

Example produce_report_clean_fails :
  let res :=
    produce Pipeline3.get_any_node Pipeline3.get_flattened_graph
      Pipeline3.execution_order Pipeline3.run_clean_fails Pipeline3.env tt
      (inr "report") true None Pipeline3.empty_world in
  res.1 = Raised (mkExc ValueError "bad input")
  ∧ committed res.2 = ["source"]
  ∧ journal res.2
    = [Opened 0; Ran 0 "source"; Committed 0; Closed 0;
       Opened 1; Ran 1 "clean"; RolledBack 1; Closed 1]
  ∧ sessions res.2 = ∅.
Proof. split_and!; reflexivity. Qed.

Lemma produce_failure_keeps_earlier_commits_witness :
  let w := Pipeline3.empty_world in
  ∃ w',
    produce Pipeline3.get_any_node Pipeline3.get_flattened_graph
      Pipeline3.execution_order Pipeline3.run_clean_fails Pipeline3.env tt
      (inr "report") true None w
    = (Raised (mkExc ValueError "bad input"), w')
    ∧ committed w' = committed w ++ concat [["source"]]
    ∧ journal w'
      = journal w ++ committed_scopes 0 ["source"]
          ++ [Opened 1; Ran 1 "clean"]
          ++ (if isinstance (mkExc ValueError "bad input") Exception
              then [RolledBack 1] else [])
          ++ [Closed 1]
    ∧ ran_nodes (journal w') = ran_nodes (journal w) ++ ["source"] ++ ["clean"]
    ∧ released w w' 2.
Proof.
  intros w.
  apply (produce_failure_keeps_earlier_commits
           Pipeline3.get_any_node Pipeline3.get_flattened_graph
           Pipeline3.execution_order Pipeline3.run_clean_fails Pipeline3.env
           tt true None (inr "report") "report"
           ["source"] "clean" ["report"] [["source"]] [Some 0] ["clean"]
           (mkExc ValueError "bad input") w).
  - reflexivity.
  - reflexivity.
  - econstructor; [reflexivity|constructor].
  - reflexivity.
Defined.

(** ** Rows and columns *)

Section TabularProperties.

Implicit Types (records : RecordsList) (df : DataFrame) (c : list PyVal).
Implicit Types (names : list string) (k : string).

Lemma lookup_list_to_map_fun {B} (g : string → B) names k :
  (list_to_map ((λ f, (f, g f)) <$> names) : gmap string B) !! k
  = if decide (k ∈ names) then Some (g k) else None.
Proof.
  induction names as [|x names IH].
  - destruct (decide (k ∈ [])) as [Hk|Hk]; [by apply elem_of_nil in Hk|].
    apply lookup_empty.
  - rewrite fmap_cons, list_to_map_cons.
    destruct (decide (k = x)) as [->|Hne].
    + rewrite lookup_insert_eq. rewrite decide_True; [done|by left].
    + rewrite lookup_insert_ne by done. rewrite IH.
      destruct (decide (k ∈ names)) as [Hin|Hnin].
      * rewrite decide_True; [done|by right].
      * rewrite decide_False; [done|].
        by intros [?|?]%elem_of_cons.
Qed.

Lemma cells_of_column c n :
  length c = n → (λ i, pandas.cell i c) <$> seq 0 n = c.
Proof.
  intros <-. apply list_eq; intros i. rewrite list_lookup_fmap.
  destruct (decide (i < length c)) as [Hi|Hi].
  - rewrite lookup_seq_lt by done. simpl. unfold pandas.cell.
    destruct (lookup_lt_is_Some_2 c i Hi) as [x Hx]. by rewrite Hx.
  - rewrite lookup_seq_ge by lia. simpl. symmetry.
    apply lookup_ge_None. lia.
Qed.

Lemma wf_column df k :
  df_wf df → k ∈ df_names df →
  ∃ c, df_cols df !! k = Some c ∧ length c = df_nrows df.
Proof.
  intros (_ & Hdom & Hlen) Hk.
  assert (k ∈ dom (df_cols df)) as Hin.
  { rewrite Hdom. by apply elem_of_list_to_set. }
  apply elem_of_dom in Hin as [c Hc]. exists c. split; [done|].
  by apply (Hlen k c).
Qed.

Lemma wf_no_column df k :
  df_wf df → k ∉ df_names df → df_cols df !! k = None.
Proof.
  intros (_ & Hdom & _) Hk. apply not_elem_of_dom. rewrite Hdom.
  by rewrite elem_of_list_to_set.
Qed.

(** The records of the frame built from records that have the names as
    their keys are those records. *)
Lemma to_records_from_records records names :
  Forall (λ r : gmap string PyVal, dom r = list_to_set names) records →
  pandas.to_records (pandas.from_records records names) = records.
Proof.
  intros Hrec. unfold pandas.to_records, pandas.from_records; simpl.
  apply list_eq; intros i. rewrite list_lookup_fmap.
  destruct (records !! i) as [r|] eqn:Hr.
  - assert (i < length records) as Hi by by apply lookup_lt_is_Some_1.
    rewrite lookup_seq_lt by done. simpl. f_equal.
    apply map_eq; intros k. unfold pandas.row; simpl.
    rewrite lookup_fmap, lookup_list_to_map_fun.
    pose proof (Forall_lookup_1 _ _ _ _ Hrec Hr) as Hdom. simpl in Hdom.
    case_decide as Hk; simpl.
    + unfold pandas.cell, pandas.column_of. rewrite list_lookup_fmap, Hr.
      simpl. assert (k ∈ dom r) as Hin.
      { rewrite Hdom. by apply elem_of_list_to_set. }
      apply elem_of_dom in Hin as [v Hv]. by rewrite Hv.
    + symmetry. apply not_elem_of_dom. rewrite Hdom.
      by rewrite elem_of_list_to_set.
  - rewrite lookup_seq_ge; [done|]. by apply lookup_ge_None.
Qed.

Lemma row_lookup df i k :
  pandas.row df i !! k = pandas.cell i <$> df_cols df !! k.
Proof. unfold pandas.row. by rewrite lookup_fmap. Qed.

(** The frame built from the records of a rectangular frame, over its
    own labels, is that frame. *)
Lemma from_records_to_records df :
  df_wf df →
  pandas.from_records (pandas.to_records df) (df_names df) = df.
Proof.
  intros Hwf. destruct df as [names cols n].
  unfold pandas.from_records; simpl. f_equal.
  - apply map_eq; intros k. rewrite lookup_list_to_map_fun.
    case_decide as Hk.
    + destruct (wf_column _ k Hwf Hk) as (c & Hc & Hlen). simpl in *.
      rewrite Hc. f_equal. unfold pandas.column_of, pandas.to_records. simpl.
      rewrite <- list_fmap_compose.
      transitivity ((λ i, pandas.cell i c) <$> seq 0 n);
        [|by apply cells_of_column].
      apply list_fmap_ext; intros i j _. simpl.
      by rewrite row_lookup; simpl; rewrite Hc.
    + symmetry. by apply (wf_no_column _ k Hwf).
  - unfold pandas.to_records. simpl. by rewrite length_fmap, length_seq.
Qed.

Lemma filter_not_elem_of_self names :
  filter (λ f, f ∉ names) names = [].
Proof.
  assert (∀ l, (∀ f, f ∈ l → f ∈ names) → filter (λ f, f ∉ names) l = [])
    as Hgen.
  { induction l as [|x l IH]; intros Hl; [done|].
    rewrite filter_cons_False.
    - apply IH. intros f Hf. apply Hl. by right.
    - intros Hx. apply Hx, Hl. by left. }
  by apply Hgen.
Qed.

(** Appending a frame with the same labels puts its rows below. *)
Lemma to_records_append df other :
  df_wf df → df_wf other → df_names other = df_names df →
  pandas.to_records (pandas.append df other)
  = pandas.to_records df ++ pandas.to_records other.
Proof.
  intros Hwf Hwf' Hnames. unfold pandas.to_records, pandas.append. simpl.
  rewrite Hnames, filter_not_elem_of_self, app_nil_r.
  rewrite seq_app, fmap_app. simpl. f_equal.
  - apply list_fmap_ext; intros j i Hi.
    apply lookup_seq in Hi as [-> Hlt]. simpl.
    apply map_eq; intros k. rewrite !row_lookup. simpl.
    rewrite lookup_list_to_map_fun. case_decide as Hk.
    + destruct (wf_column _ k Hwf Hk) as (c & Hc & Hlen).
      unfold pandas.column_or_missing at 1. rewrite Hc. simpl.
      unfold pandas.cell. by rewrite lookup_app_l by lia.
    + by rewrite (wf_no_column _ k Hwf Hk).
  - replace (seq (df_nrows df) (df_nrows other))
      with (Nat.add (df_nrows df) <$> seq 0 (df_nrows other))
      by (rewrite fmap_add_seq; f_equal; lia).
    rewrite <- list_fmap_compose.
    apply list_fmap_ext; intros j i Hi.
    apply lookup_seq in Hi as [-> Hlt]. simpl.
    apply map_eq; intros k. rewrite !row_lookup. simpl.
    rewrite lookup_list_to_map_fun. case_decide as Hk.
    + destruct (wf_column _ k Hwf Hk) as (c & Hc & Hlen).
      rewrite <- Hnames in Hk.
      destruct (wf_column _ k Hwf' Hk) as (c' & Hc' & Hlen').
      unfold pandas.column_or_missing. rewrite Hc, Hc'. simpl.
      unfold pandas.cell. rewrite lookup_app_r by lia.
      by replace (df_nrows df + j - length c) with j by lia.
    + rewrite <- Hnames in Hk. by rewrite (wf_no_column _ k Hwf' Hk).
Qed.

(** Appending a frame with the same labels gives a rectangular frame
    with those labels. *)
Lemma append_wf df other :
  df_wf df → df_wf other → df_names other = df_names df →
  df_wf (pandas.append df other)
  ∧ df_names (pandas.append df other) = df_names df.
Proof.
  intros Hwf Hwf' Hnames.
  assert (df_names (pandas.append df other) = df_names df) as Hn.
  { unfold pandas.append; simpl.
    by rewrite Hnames, filter_not_elem_of_self, app_nil_r. }
  split; [|done]. split_and!.
  - rewrite Hn. by destruct Hwf.
  - rewrite Hn. apply set_eq; intros k.
    rewrite elem_of_dom, elem_of_list_to_set. unfold pandas.append; simpl.
    rewrite Hnames, filter_not_elem_of_self, app_nil_r.
    rewrite lookup_list_to_map_fun. case_decide; [|split; [intros []|]]; done.
  - intros k c. unfold pandas.append; simpl.
    rewrite Hnames, filter_not_elem_of_self, app_nil_r.
    rewrite lookup_list_to_map_fun. case_decide as Hk; [|done].
    intros [= <-]. destruct (wf_column _ k Hwf Hk) as (c1 & Hc1 & Hl1).
    rewrite <- Hnames in Hk.
    destruct (wf_column _ k Hwf' Hk) as (c2 & Hc2 & Hl2).
    unfold pandas.column_or_missing. rewrite Hc1, Hc2. simpl.
    rewrite length_app. lia.
Qed.

End TabularProperties.

(** ** Conversions between records and frames *)

Example test_dataframe_to_records_list :
  utils_pandas.dataframe_to_records_list Samples.frame_ab None
  = Samples.records_ab.
Proof. by vm_compute. Qed.

(** C5. Records that have the schema come back unchanged from
    [records_list_to_dataframe] followed by [dataframe_to_records_list],
    and a frame that has the schema comes back unchanged from
    [dataframe_to_records_list] followed by [records_list_to_dataframe]:
    the same rows, columns and values. *)
Theorem records_dataframe_round_trip (otype : ObjectType)
    (records : RecordsList) (df : DataFrame) :
  records_have otype records →
  frame_has otype df →
  MemoryToMemoryConverter.dataframe_to_records_list
    (MemoryToMemoryConverter.records_list_to_dataframe records otype) otype
  = records
  ∧ MemoryToMemoryConverter.records_list_to_dataframe
      (MemoryToMemoryConverter.dataframe_to_records_list df otype) otype
    = df.
Proof.
  intros Hrec [Hwf Hnames]. split.
  - by apply to_records_from_records.
  - unfold MemoryToMemoryConverter.records_list_to_dataframe,
      utils_pandas.records_list_to_dataframe.
    rewrite <- Hnames. by apply from_records_to_records.
Qed.

Lemma samples_records_ab_have_schema :
  records_have Samples.schema_ab Samples.records_ab.
Proof.
  unfold records_have. apply Forall_forall. intros r Hr.
  apply list_elem_of_fmap in Hr as (i & -> & _).
  rewrite dom_insert_L, dom_singleton_L. simpl. set_solver.
Qed.

Lemma samples_frame_ab_has_schema :
  frame_has Samples.schema_ab Samples.frame_ab.
Proof.
  split; [|done]. split_and!.
  - simpl. apply (bool_decide_unpack _). by vm_compute.
  - simpl. rewrite dom_insert_L, dom_singleton_L. set_solver.
  - intros k c. simpl. intros Hk.
    apply lookup_insert_Some in Hk as [[_ <-]|[_ Hk]]; [done|].
    apply lookup_singleton_Some in Hk as [_ <-]. done.
Qed.

Lemma records_dataframe_round_trip_witness :
  MemoryToMemoryConverter.dataframe_to_records_list
    (MemoryToMemoryConverter.records_list_to_dataframe
       Samples.records_ab Samples.schema_ab) Samples.schema_ab
  = Samples.records_ab
  ∧ MemoryToMemoryConverter.records_list_to_dataframe
      (MemoryToMemoryConverter.dataframe_to_records_list
         Samples.frame_ab Samples.schema_ab) Samples.schema_ab
    = Samples.frame_ab.
Proof.
  apply (records_dataframe_round_trip Samples.schema_ab Samples.records_ab
           Samples.frame_ab).
  - apply samples_records_ab_have_schema.
  - apply samples_frame_ab_has_schema.
Defined.

(** ** The accumulator *)

(** C6. Without [this] the accumulator returns the frame of its input as
    it is. With [this] bound to a block of the same schema, its rows are
    the rows of that block followed by the rows of the input, and the
    result has the schema again: what [this] holds is passed to
    [append] as it is. *)
Theorem dataframe_accumulator_appends {DataBlock : Type}
    (as_dataframe : DataBlock → DataFrame) (input this : DataBlock)
    (otype : ObjectType) :
  frame_has otype (as_dataframe input) →
  frame_has otype (as_dataframe this) →
  dataframe_accumulator as_dataframe input None = as_dataframe input
  ∧ pandas.to_records (dataframe_accumulator as_dataframe input (Some this))
    = pandas.to_records (as_dataframe this)
        ++ pandas.to_records (as_dataframe input)
  ∧ frame_has otype (dataframe_accumulator as_dataframe input (Some this)).
Proof.
  intros [Hwf Hn] [Hwf' Hn']. split; [done|].
  assert (df_names (as_dataframe input) = df_names (as_dataframe this))
    as Hsame by by rewrite Hn, Hn'.
  unfold dataframe_accumulator. split.
  - by apply to_records_append.
  - destruct (append_wf _ _ Hwf' Hwf Hsame) as [Hw Hnames].
    split; [done|]. by rewrite Hnames.
Qed.

Lemma frame_x_has_schema (values : list Z) :
  frame_has Samples.schema_x (Samples.frame_x values).
Proof.
  split; [|done]. split_and!; simpl.
  - apply NoDup_singleton.
  - rewrite dom_singleton_L. set_solver.
  - intros k c Hk. apply lookup_singleton_Some in Hk as [_ <-].
    by rewrite length_fmap.
Qed.

(** The first run emits the rows 1 and 2; the second run gets the row 3
    as input and the output of the first run as [this]. *)
Example accumulate_1_2_then_3 :
  let first := dataframe_accumulator id (Samples.frame_x [1; 2]%Z) None in
  let second := dataframe_accumulator id (Samples.frame_x [3]%Z) (Some first) in
  first = Samples.frame_x [1; 2]%Z
  ∧ pandas.to_records second
    = [ {[ "x" := VInt 1 ]}; {[ "x" := VInt 2 ]}; {[ "x" := VInt 3 ]} ].
Proof. split; by vm_compute. Qed.

Lemma dataframe_accumulator_appends_witness :
  dataframe_accumulator id (Samples.frame_x [3]%Z) None
  = Samples.frame_x [3]%Z
  ∧ pandas.to_records
      (dataframe_accumulator id (Samples.frame_x [3]%Z)
         (Some (Samples.frame_x [1; 2]%Z)))
    = pandas.to_records (Samples.frame_x [1; 2]%Z)
        ++ pandas.to_records (Samples.frame_x [3]%Z)
  ∧ frame_has Samples.schema_x
      (dataframe_accumulator id (Samples.frame_x [3]%Z)
         (Some (Samples.frame_x [1; 2]%Z))).
Proof.
  apply (dataframe_accumulator_appends id (Samples.frame_x [3]%Z)
           (Samples.frame_x [1; 2]%Z) Samples.schema_x).
  - apply frame_x_has_schema.
  - apply frame_x_has_schema.
Defined.

(** ** MemoryToMemoryConverter *)

(** The converter has a function only for pairs of different formats. *)
Lemma lookup_formats_differ (fi fo : DataFormat)
    (convert : RecordsObject → ObjectType → PyResult RecordsObject) :
  MemoryToMemoryConverter.lookup (fi, fo) = Some convert → fi ≠ fo.
Proof. by destruct fi, fo. Qed.

(** C7. A conversion by [_convert] leaves the input replica as it was:
    the memory still holds the same records under the input stored block,
    and every other replica except the output one is untouched. When the
    conversion succeeds the output replica is another replica than the
    input one and holds the converted records; when it raises, the memory
    is unchanged. *)
Theorem convert_leaves_input_replica
    (input_sdb output_sdb : StoredDataBlockMetadata) (mem : Memory) :
  let res := MemoryToMemoryConverter._convert input_sdb output_sdb mem in
  get_local_memory_data_records res.2 input_sdb
    = get_local_memory_data_records mem input_sdb
  ∧ res.2 !! replica_key input_sdb = mem !! replica_key input_sdb
  ∧ (∀ k, k ≠ replica_key output_sdb → res.2 !! k = mem !! k)
  ∧ match res.1 with
    | Returned sdb =>
        sdb = output_sdb
        ∧ replica_key output_sdb ≠ replica_key input_sdb
        ∧ is_Some (res.2 !! replica_key output_sdb)
    | Raised _ => res.2 = mem
    end.
Proof.
  unfold MemoryToMemoryConverter._convert, get_local_memory_data_records.
  destruct (mem !! replica_key input_sdb) as [input_ldr|] eqn:Hin;
    [|by cbn; rewrite Hin].
  destruct (MemoryToMemoryConverter.lookup
              (data_format input_sdb, data_format output_sdb))
    as [convert|] eqn:Hlookup; [|by cbn; rewrite Hin].
  destruct (convert (records_object input_ldr) (realized_otype input_sdb))
    as [out|e].
  - apply lookup_formats_differ in Hlookup.
    assert (replica_key output_sdb ≠ replica_key input_sdb) as Hne.
    { unfold replica_key. intros [= _ _ Heq]. by apply Hlookup. }
    cbn. unfold store_local_memory_data_records.
    rewrite lookup_insert_ne by done. rewrite Hin. split_and!; try done.
    + intros k Hk. by rewrite lookup_insert_ne.
    + rewrite lookup_insert_eq. by eexists.
  - destruct (isinstance e KeyError); cbn; by rewrite Hin.
Qed.

Example convert_frame_to_records :
  let input := Samples.replica "block1" DataFrameFormat in
  let output := Samples.replica "block1" RecordsListFormat in
  let res := MemoryToMemoryConverter._convert input output Samples.memory_ab in
  res.1 = Returned output
  ∧ res.2 !! replica_key input = Some (from_records_object (ODataFrame Samples.frame_ab))
  ∧ res.2 !! replica_key output
    = Some (from_records_object (ORecordsList Samples.records_ab)).
Proof. split_and!; by vm_compute. Qed.

Example convert_without_function :
  let input := Samples.replica "block1" DataFrameFormat in
  let output := Samples.replica "block1" DataFrameGeneratorFormat in
  let res := MemoryToMemoryConverter._convert input output Samples.memory_ab in
  res.1 = Raised (mkExc NotImplementedError "formats")
  ∧ res.2 !! replica_key input
    = Some (from_records_object (ODataFrame Samples.frame_ab))
  ∧ res.2 !! replica_key output = None.
Proof. split_and!; by vm_compute. Qed.

(** Every edge of [MemoryToMemoryConverter] has the one cost level of the
    class and leads into a materialized format: the edge from the
    dataframe generator into the records list costs what the edge from the
    records list into the dataframe costs, and there is no edge from a
    generator into a generator. Which path a search over these edges and
    those of other converters takes is decided in [dags.core.conversion],
    outside the modelled sources. *)
Lemma memory_converter_costs_ignore_streaming :
  Forall
    (λ e, MemoryToMemoryConverter.edge_cost e = MEMORY
          ∧ is_streaming (sf_data_format e.2) = false)
    MemoryToMemoryConverter.edges
  ∧ ((mkStorageFormat DICT_MEMORY DataFrameGeneratorFormat,
      mkStorageFormat DICT_MEMORY RecordsListFormat)
     ∈ MemoryToMemoryConverter.edges)
  ∧ ((mkStorageFormat DICT_MEMORY DataFrameGeneratorFormat,
      mkStorageFormat DICT_MEMORY RecordsListGeneratorFormat)
     ∉ MemoryToMemoryConverter.edges)
  ∧ MemoryToMemoryConverter.edge_cost
      (mkStorageFormat DICT_MEMORY DataFrameGeneratorFormat,
       mkStorageFormat DICT_MEMORY RecordsListFormat)
    = MemoryToMemoryConverter.edge_cost
        (mkStorageFormat DICT_MEMORY RecordsListFormat,
         mkStorageFormat DICT_MEMORY DataFrameFormat).
Proof.
  split_and!.
  - repeat constructor.
  - apply (bool_decide_unpack _). by vm_compute.
  - apply (bool_decide_unpack _). by vm_compute.
  - done.
Qed.

(** ** Static pipes *)

Section EmitsOnce.

Context {Config : Type}.
Variable pipe : PipeContext Config → option DataFrame * PipeContext Config.

(** Once nothing is returned and the context stays, it goes on like
    that. *)
Lemma invocations_nothing (ctx : PipeContext Config) (n : nat) :
  pipe ctx = (None, ctx) →
  invocations pipe n ctx = (replicate n None, ctx).
Proof.
  intros Hp. induction n as [|n IH]; simpl; [done|].
  by rewrite Hp, IH.
Qed.

Lemma run_to_exhaustion_nothing (ctx : PipeContext Config) (fuel : nat) :
  pipe ctx = (None, ctx) →
  (run_to_exhaustion (returning pipe) true true fuel ctx).1 = Returned [].
Proof.
  intros Hp. destruct fuel as [|fuel]; simpl; [done|].
  unfold returning. by rewrite Hp.
Qed.

Lemma invocations_first (ctx ctx1 : PipeContext Config) (df : DataFrame)
    (n : nat) :
  pipe ctx = (Some df, ctx1) → pipe ctx1 = (None, ctx1) →
  (invocations pipe (S n) ctx).1 = Some df :: replicate n None.
Proof.
  intros Hp Hp1. simpl. rewrite Hp.
  by rewrite (invocations_nothing ctx1 n Hp1).
Qed.

Lemma run_to_exhaustion_first (ctx ctx1 : PipeContext Config)
    (df : DataFrame) (fuel : nat) :
  pipe ctx = (Some df, ctx1) → pipe ctx1 = (None, ctx1) →
  (run_to_exhaustion (returning pipe) true true (S fuel) ctx).1
  = Returned [df].
Proof.
  intros Hp Hp1. simpl. unfold returning at 1. rewrite Hp. simpl.
  pose proof (run_to_exhaustion_nothing ctx1 fuel Hp1) as Hrest.
  by destruct (run_to_exhaustion _ _ _ fuel ctx1) as [[blocks|e] ctx2];
    simpl in Hrest; simplify_eq.
Qed.

End EmitsOnce.

Lemma get_state_value_unset {Config} (ctx : PipeContext Config) (key : string) :
  state ctx !! key = None → truthy (get_state_value ctx key) = false.
Proof. unfold get_state_value. by intros ->. Qed.

(** C9. Both [extract_dataframe] pipes emit the configured frame once:
    when the state value [extracted] is not set the invocation sets it to
    [True] and returns the frame; when it is set the invocation returns
    nothing and leaves the state as it is; so of any number of successive
    invocations only the first returns the frame, and the run to
    exhaustion yields exactly one block. *)
Theorem extract_dataframe_emits_once
    (ctx : PipeContext pipes_static.ExtractDataFrameConfig)
    (ctx' : PipeContext external_static.DataFrameResourceConfig) :
  emits_once pipes_static.extract_dataframe pipes_static.dataframe ctx
  ∧ emits_once external_static.extract_dataframe external_static.dataframe ctx'.
Proof.
  split.
  - unfold emits_once.
    destruct (truthy (get_state_value ctx "extracted")) eqn:Hflag.
    + assert (pipes_static.extract_dataframe ctx = (None, ctx)) as Hp.
      { unfold pipes_static.extract_dataframe. by rewrite Hflag. }
      split_and!; [done| |].
      * intros n. by apply invocations_nothing.
      * intros fuel. by apply run_to_exhaustion_nothing.
    + destruct (pipes_static.extract_dataframe ctx) as [out ctx1] eqn:Hp.
      assert (out = Some (pipes_static.dataframe (config ctx))
              ∧ state ctx1 = <["extracted" := VBool true]> (state ctx)
              ∧ config ctx1 = config ctx) as (-> & Hst & Hcf).
      { unfold pipes_static.extract_dataframe in Hp. rewrite Hflag in Hp.
        simpl in Hp.
        destruct (schema_truthy (pipes_static.schema (config ctx)));
          by simplify_eq. }
      assert (pipes_static.extract_dataframe ctx1 = (None, ctx1)) as Hp1.
      { unfold pipes_static.extract_dataframe, get_state_value.
        by rewrite Hst, lookup_insert_eq. }
      simpl. split_and!; try done.
      * intros n. by apply (invocations_first _ ctx ctx1).
      * intros fuel. by apply (run_to_exhaustion_first _ ctx ctx1).
  - unfold emits_once.
    destruct (truthy (get_state_value ctx' "extracted")) eqn:Hflag.
    + assert (external_static.extract_dataframe ctx' = (None, ctx')) as Hp.
      { unfold external_static.extract_dataframe. by rewrite Hflag. }
      split_and!; [done| |].
      * intros n. by apply invocations_nothing.
      * intros fuel. by apply run_to_exhaustion_nothing.
    + destruct (external_static.extract_dataframe ctx') as [out ctx1] eqn:Hp.
      assert (out = Some (external_static.dataframe (config ctx'))
              ∧ state ctx1 = <["extracted" := VBool true]> (state ctx')
              ∧ config ctx1 = config ctx') as (-> & Hst & Hcf).
      { unfold external_static.extract_dataframe in Hp.
        rewrite Hflag in Hp. by simplify_eq. }
      assert (external_static.extract_dataframe ctx1 = (None, ctx1)) as Hp1.
      { unfold external_static.extract_dataframe, get_state_value.
        by rewrite Hst, lookup_insert_eq. }
      simpl. split_and!; try done.
      * intros n. by apply (invocations_first _ ctx' ctx1).
      * intros fuel. by apply (run_to_exhaustion_first _ ctx' ctx1).
Qed.

Example extract_dataframe_three_times :
  let ctx :=
    mkPipeContext ∅ (pipes_static.mkConfig Samples.frame_ab (Some (SchemaKey "TestAB")))
      None in
  (invocations pipes_static.extract_dataframe 3 ctx).1
  = [Some Samples.frame_ab; None; None]
  ∧ output_schema (invocations pipes_static.extract_dataframe 3 ctx).2
    = Some (SchemaKey "TestAB")
  ∧ get_state_value (invocations pipes_static.extract_dataframe 3 ctx).2
      "extracted" = VBool true.
Proof. split_and!; by vm_compute. Qed.

(** ** Schema inference for a records list generator *)

(** The guard of the inference: when [get_records_list_sample] returns
    [None] it raises [ValueError] and returns no schema, and a schema that
    is returned was inferred from the sample that the helper returned.
    What the helper returns for which generator is decided in
    [dags.core.data_formats], outside the modelled sources; the guard does
    not test that the sample holds a record. *)
Lemma infer_otype_needs_a_sample
    (get_records_list_sample : list RecordsList → option RecordsList)
    (infer_otype_from_records_list : RecordsList → PyResult ObjectType)
    (records : list RecordsList) :
  let result :=
    RecordsListGeneratorFormat.infer_otype_from_records
      get_records_list_sample infer_otype_from_records_list records in
  (get_records_list_sample records = None →
     result = Raised (mkExc ValueError "Empty records object"))
  ∧ (∀ otype, result = Returned otype →
       ∃ dl, get_records_list_sample records = Some dl
             ∧ infer_otype_from_records_list dl = Returned otype).
Proof.
  unfold RecordsListGeneratorFormat.infer_otype_from_records. split.
  - by intros ->.
  - intros otype. destruct (get_records_list_sample records) as [dl|];
      [|done]. intros Hr. by exists dl.
Qed.

Lemma infer_otype_needs_a_sample_witness :
  RecordsListGeneratorFormat.infer_otype_from_records
    RecordsListGeneratorFormat.first_chunk
    RecordsListGeneratorFormat.fields_of_first []
  = Raised (mkExc ValueError "Empty records object").
Proof.
  apply (infer_otype_needs_a_sample
           RecordsListGeneratorFormat.first_chunk
           RecordsListGeneratorFormat.fields_of_first []).
  reflexivity.
Defined.

(** With a helper that returns the first chunk, a generator whose first
    chunk is empty passes the guard: the sample is the empty list, not
    [None], and the inference runs on it. *)
Example infer_otype_of_an_empty_chunk :
  RecordsListGeneratorFormat.first_chunk [[]] = Some []
  ∧ ∃ otype,
      RecordsListGeneratorFormat.infer_otype_from_records
        RecordsListGeneratorFormat.first_chunk
        RecordsListGeneratorFormat.fields_of_first [[]]
      = Returned otype
      ∧ otype_fields otype = [].
Proof. split; [done|]. eexists. split; [reflexivity|]. by vm_compute. Qed.

(** ** Outcomes of a pipe invocation *)

Section Outcomes.

Context {Row Node Graph Storage Ctx V : Type}.
Variable invoke : Ctx → PyResult (option V) * Ctx.
Variable to_exhaustion repeatable : bool.

Lemma outcome_of_cases (r : PyResult (option V)) :
  match outcome_of r with
  | Produced v => r = Returned v
  | Exhausted =>
      ∃ e, r = Raised e ∧ isinstance e InputExhaustedException = true
  | Failed e => r = Raised e ∧ isinstance e InputExhaustedException = false
  end.
Proof.
  destruct r as [v|e]; simpl; [done|].
  destruct (isinstance e InputExhaustedException) eqn:He; [by exists e|done].
Qed.

(** The loop never raises the exhaustion signal. *)
Lemma run_to_exhaustion_raises_failures (fuel : nat) (ctx ctx' : Ctx)
    (e : PyExc) :
  run_to_exhaustion invoke to_exhaustion repeatable fuel ctx = (Raised e, ctx') →
  isinstance e InputExhaustedException = false.
Proof.
  revert ctx. induction fuel as [|fuel IH]; intros ctx; simpl; [done|].
  destruct (invoke ctx) as [r ctx1].
  pose proof (outcome_of_cases r) as Hr.
  destruct (outcome_of r) as [[v|]| |e1]; try done.
  - destruct (to_exhaustion && repeatable); [|done].
    destruct (run_to_exhaustion _ _ _ fuel ctx1) as [[blocks|e2] ctx2] eqn:Hrec;
      [done|]. intros [= -> ->]. by apply (IH ctx1).
  - intros [= -> ->]. by destruct Hr.
Qed.

(** The loop after a run of produced blocks: it goes on from the context
    they left, and puts them before what the rest of the loop registers. *)
Lemma run_to_exhaustion_after_blocks (blocks : list V) (fuel : nat)
    (ctx ctx1 : Ctx) :
  invoked invoke (length blocks) ctx
    = ((λ v, Returned (Some v)) <$> blocks, ctx1) →
  length blocks < fuel →
  blocks = [] ∨ to_exhaustion && repeatable = true →
  run_to_exhaustion invoke to_exhaustion repeatable fuel ctx
  = match run_to_exhaustion invoke to_exhaustion repeatable
            (fuel - length blocks) ctx1 with
    | (Returned rest, ctx2) => (Returned (blocks ++ rest), ctx2)
    | (Raised e, ctx2) => (Raised e, ctx2)
    end.
Proof.
  revert fuel ctx. induction blocks as [|v blocks IH]; intros fuel ctx.
  - simpl. intros [= <-] _ _. rewrite Nat.sub_0_r.
    by destruct (run_to_exhaustion _ _ _ fuel ctx) as [[rest|e] ctx2].
  - intros Hinv Hfuel [Hnil|Hflags]; [done|].
    destruct fuel as [|fuel]; [simpl in Hfuel; lia|].
    simpl in Hinv. destruct (invoke ctx) as [r c1] eqn:Hi.
    destruct (invoked invoke (length blocks) c1) as [rs c2] eqn:Hrest.
    injection Hinv as -> Hrs ->.
    assert (length blocks < fuel) as Hlt by (simpl in Hfuel; lia).
    specialize (IH fuel c1). rewrite Hrest, Hrs in IH.
    specialize (IH eq_refl Hlt (or_intror Hflags)).
    change (S fuel - length (v :: blocks)) with (fuel - length blocks).
    cbn [run_to_exhaustion]. rewrite Hi. cbn [outcome_of].
    rewrite Hflags, IH.
    by destruct (run_to_exhaustion _ _ _ (fuel - length blocks) ctx1)
      as [[rest|e] ctx2].
Qed.

(** The scope of a node run to exhaustion follows the loop. *)
Lemma exhaustion_scope (self : @Environment Storage) (graph : Graph)
    (target : option Storage) (rows_of : list V → list Row)
    (w : @World Row Node) (fuel : nat) (ctx : Ctx) :
  let s := next_session w in
  let scope :=
    execution self graph target
      (λ _ _, exhaustion_work invoke to_exhaustion repeatable fuel ctx
                rows_of) w in
  match (run_to_exhaustion invoke to_exhaustion repeatable fuel ctx).1 with
  | Returned result =>
      scope.1 = Returned result
      ∧ committed scope.2 = committed w ++ rows_of result
      ∧ journal scope.2 = journal w ++ [Opened s; Committed s; Closed s]
  | Raised e =>
      scope.1 = Raised e
      ∧ committed scope.2 = committed w
      ∧ journal scope.2
        = journal w ++ [Opened s]
            ++ (if isinstance e Exception then [RolledBack s] else [])
            ++ [Closed s]
  end.
Proof.
  simpl. rewrite execution_spec. unfold exhaustion_work.
  destruct (run_to_exhaustion _ _ _ fuel ctx) as [[result|e] ctx2]; simpl;
    unfold scope_events; simpl; by split_and!.
Qed.

(** C8. What a pipe invocation did has exactly one of the three tags:
    [Produced] for a call that returned, [Exhausted] for the exhaustion
    signal and [Failed] for any other exception. Let the pipe have
    produced [blocks] in as many successive invocations (none, or any
    number when the node is run to exhaustion and the pipe is repeatable),
    with fuel left for the next invocation. If that invocation is
    [Exhausted], the loop ends normally with exactly these blocks, and the
    scope of the node returns them, commits their rows and is closed; it is
    not rolled back. If it is [Failed], the loop raises the error and the
    scope commits nothing. If it returns nothing, the loop ends like on
    [Exhausted]. If it produced another block, a single run ends with it,
    and a run to exhaustion is these blocks, the new one and what the loop
    does from there. And the loop never raises the exhaustion signal. *)
Theorem exhausted_is_not_a_failure (self : @Environment Storage)
    (graph : Graph) (target : option Storage) (rows_of : list V → list Row)
    (w : @World Row Node) (fuel : nat) (ctx ctx1 : Ctx) (blocks : list V) :
  invoked invoke (length blocks) ctx
    = ((λ v, Returned (Some v)) <$> blocks, ctx1) →
  length blocks < fuel →
  blocks = [] ∨ to_exhaustion && repeatable = true →
  let s := next_session w in
  let loop := run_to_exhaustion invoke to_exhaustion repeatable in
  let scope :=
    execution self graph target
      (λ _ _, exhaustion_work invoke to_exhaustion repeatable fuel ctx
                rows_of) w in
  let commits (result : list V) :=
    scope.1 = Returned result
    ∧ committed scope.2 = committed w ++ rows_of result
    ∧ journal scope.2 = journal w ++ [Opened s; Committed s; Closed s] in
  (∀ r : PyResult (option V),
     match outcome_of r with
     | Produced v => r = Returned v
     | Exhausted =>
         ∃ e, r = Raised e ∧ isinstance e InputExhaustedException = true
     | Failed e => r = Raised e ∧ isinstance e InputExhaustedException = false
     end)
  ∧ match outcome_of (invoke ctx1).1 with
    | Exhausted =>
        loop fuel ctx = (Returned blocks, (invoke ctx1).2) ∧ commits blocks
    | Failed e =>
        loop fuel ctx = (Raised e, (invoke ctx1).2)
        ∧ scope.1 = Raised e
        ∧ committed scope.2 = committed w
        ∧ journal scope.2
          = journal w ++ [Opened s]
              ++ (if isinstance e Exception then [RolledBack s] else [])
              ++ [Closed s]
    | Produced None =>
        loop fuel ctx = (Returned blocks, (invoke ctx1).2) ∧ commits blocks
    | Produced (Some v) =>
        if to_exhaustion && repeatable then
          loop fuel ctx
          = match loop (fuel - S (length blocks)) (invoke ctx1).2 with
            | (Returned rest, ctx2) => (Returned (blocks ++ v :: rest), ctx2)
            | (Raised e, ctx2) => (Raised e, ctx2)
            end
        else loop fuel ctx = (Returned [v], (invoke ctx1).2) ∧ commits [v]
    end
  ∧ (∀ fuel' ctx0 e ctx',
       loop fuel' ctx0 = (Raised e, ctx') →
       isinstance e InputExhaustedException = false).
Proof.
  intros Hinv Hfuel Hflags s loop scope commits. split_and!.
  - apply outcome_of_cases.
  - pose proof (run_to_exhaustion_after_blocks blocks fuel ctx ctx1
                  Hinv Hfuel Hflags) as Hloop.
    pose proof (exhaustion_scope self graph target rows_of w fuel ctx)
      as Hscope.
    fold s scope in Hscope. fold loop in Hloop, Hscope.
    destruct (fuel - length blocks) as [|k] eqn:Hk; [lia|].
    assert (fuel - S (length blocks) = k) as -> by lia.
    unfold loop in Hloop at 2. cbn [run_to_exhaustion] in Hloop.
    fold loop in Hloop.
    destruct (invoke ctx1) as [r ctx2]. cbn [fst snd].
    destruct (outcome_of r) as [[v|]| |e].
    + destruct (to_exhaustion && repeatable) eqn:Hagain.
      * rewrite Hloop.
        by destruct (loop k ctx2) as [[rest|e] ctx3].
      * destruct Hflags as [->|?]; [|done]. simpl in Hloop.
        rewrite Hloop in Hscope. by rewrite Hloop.
    + rewrite app_nil_r in Hloop. rewrite Hloop in Hscope. by rewrite Hloop.
    + rewrite app_nil_r in Hloop. rewrite Hloop in Hscope. by rewrite Hloop.
    + rewrite Hloop in Hscope. by rewrite Hloop.
  - intros fuel' ctx0 e ctx'. apply run_to_exhaustion_raises_failures.
Qed.

End Outcomes.

(** Exhausted at the third invocation, the loop yields two blocks. *)
Example two_blocks_then_exhausted :
  run_to_exhaustion two_then_exhausted true true 10 0 = (Returned [0; 1], 2).
Proof. reflexivity. Qed.

(** A failure at the second invocation is raised, and the scope of the
    node is rolled back; the exhaustion signal at the third invocation
    ends the loop, and the scope is committed. *)
Example failed_and_exhausted_scopes :
  let scope_of invoke :=
    execution (Row := string) (Node := string) Pipeline3.env tt None
      (λ _ _, exhaustion_work invoke true true 10 0
                (λ blocks, (λ n, "block") <$> blocks))
      Pipeline3.empty_world in
  (scope_of one_then_fails).1 = Raised (mkExc ValueError "bad input")
  ∧ committed (scope_of one_then_fails).2 = []
  ∧ journal (scope_of one_then_fails).2 = [Opened 0; RolledBack 0; Closed 0]
  ∧ (scope_of two_then_exhausted).1 = Returned [0; 1]
  ∧ committed (scope_of two_then_exhausted).2 = ["block"; "block"]
  ∧ journal (scope_of two_then_exhausted).2
    = [Opened 0; Committed 0; Closed 0].
Proof. split_and!; by vm_compute. Qed.

Lemma exhausted_is_not_a_failure_witness :
  run_to_exhaustion two_then_exhausted true true 10 0 = (Returned [0; 1], 2)
  ∧ journal
      (execution (Row := string) (Node := string) Pipeline3.env tt None
         (λ _ _, exhaustion_work two_then_exhausted true true 10 0
                   (λ blocks, (λ n, "block") <$> blocks))
         Pipeline3.empty_world).2
    = [Opened 0; Committed 0; Closed 0].
Proof.
  pose proof (exhausted_is_not_a_failure (Row := string) (Node := string)
                two_then_exhausted true true Pipeline3.env tt None
                (λ blocks, (λ n, "block") <$> blocks)
                Pipeline3.empty_world 10 0 2 [0; 1]
                eq_refl ltac:(simpl; lia) (or_intror eq_refl))
    as (_ & H & _).
  split; [exact (proj1 H) | exact (proj2 (proj2 (proj2 H)))].
Defined.

(** ** Other entry points of the environment *)

Section EnvironmentCallersProperties.

Context {Row Node Graph Storage Runtime DataBlock : Type}.

Local Abbreviation World := (@World Row Node).
Local Abbreviation Environment := (@Environment Storage).
Local Abbreviation ExecutionManager := (@ExecutionManager Graph Storage).

Variable get_any_node : Graph → string → PyResult Node.
Variable get_flattened_graph : Graph → Graph.
Variable get_all_upstream_dependencies_in_execution_order :
  Graph → Node → list Node.
Variable get_flattened_root_node_for_declared_node : Graph → Node → Node.
Variable get_all_nodes_in_execution_order : Graph → list Node.
Variable run :
  ExecutionManager → Node → bool → list Row →
  list Row * PyResult (option DataBlock).

Variable self : Environment.
Variable graph : Graph.
Variable to_exhaustion : bool.
Variable target : option Storage.

Lemma run_graph_loop_as_produce_loop (nodes : list Node)
    (out0 : option DataBlock) (w : World) :
  let p := produce_loop run self graph to_exhaustion target nodes out0 w in
  let g := run_graph_loop run self graph to_exhaustion target nodes w in
  g.2 = p.2
  ∧ match p.1 with
    | Returned _ => g.1 = Returned tt
    | Raised e => g.1 = Raised e
    end.
Proof.
  revert out0 w. induction nodes as [|node rest IH]; intros out0 w; simpl.
  - done.
  - destruct (execution self graph target (em_run run node to_exhaustion) w)
      as [[out|e] w1]; simpl; [|done].
    apply IH.
Qed.

(** X1. When the execution order of the whole graph is the upstream order
    of a node, [run_graph] leaves the world that [produce] for that node
    leaves, and raises what it raises; only the output is not returned. *)
Theorem run_graph_as_produce (node_like : Node + string) (node : Node)
    (w : World) :
  let p :=
    produce get_any_node get_flattened_graph
      get_all_upstream_dependencies_in_execution_order run
      self graph node_like to_exhaustion target w in
  let g :=
    run_graph get_flattened_graph get_all_nodes_in_execution_order run
      self graph to_exhaustion target w in
  resolve_node get_any_node graph node_like = Returned node →
  get_all_nodes_in_execution_order (get_flattened_graph graph)
    = get_all_upstream_dependencies_in_execution_order
        (get_flattened_graph graph) node →
  g.2 = p.2
  ∧ match p.1 with
    | Returned _ => g.1 = Returned tt
    | Raised e => g.1 = Raised e
    end.
Proof.
  intros p g Hnode Hall. unfold p, g, produce, run_graph.
  unfold resolve_node in Hnode. rewrite Hnode, Hall.
  apply run_graph_loop_as_produce_loop.
Qed.

(** X2. [run_node] runs one node only, the flattened root of the node it
    is given, in one scope that commits when the run returns and is
    closed in any case; a key that does not resolve raises before a
    session is opened. *)
Theorem run_node_runs_one_node (node_like : Node + string) (w : World) :
  let res :=
    run_node get_any_node get_flattened_graph
      get_flattened_root_node_for_declared_node run
      self graph node_like to_exhaustion target w in
  match resolve_node get_any_node graph node_like with
  | Raised e => res = (Raised e, w)
  | Returned node =>
      let root :=
        get_flattened_root_node_for_declared_node
          (get_flattened_graph graph) node in
      let wk :=
        em_run run root to_exhaustion
          (manager self graph target (next_session w)) (committed w) in
      ran_nodes (journal res.2) = ran_nodes (journal w) ++ [root]
      ∧ scope_discipline w wk res
      ∧ (work_rows wk, work_result wk)
        = run (manager self graph target (next_session w)) root
            to_exhaustion (committed w)
  end.
Proof.
  unfold run_node, resolve_node.
  destruct (match node_like with
            | inl n => Returned n
            | inr name => get_any_node graph name
            end) as [node|e]; [|done].
  simpl. rewrite execution_spec.
  set (root := get_flattened_root_node_for_declared_node _ node).
  split_and!.
  - simpl. unfold scope_events, em_run.
    destruct (run _ root _ _) as [rows [out|e]]; simpl.
    + rewrite ran_nodes_app. simpl. done.
    + rewrite ran_nodes_app. simpl. by destruct (isinstance e Exception).
  - apply after_scope_discipline.
  - unfold em_run, manager. by destruct (run _ root _ _).
Qed.

Local Abbreviation producing :=
  (produce get_any_node get_flattened_graph
     get_all_upstream_dependencies_in_execution_order run
     self graph).

(** The world that a returning call of [produce] leaves. *)
Lemma produce_returned_world (node_like : Node + string) (node : Node)
    (w w' : World) (out : option DataBlock) :
  let deps :=
    get_all_upstream_dependencies_in_execution_order
      (get_flattened_graph graph) node in
  resolve_node get_any_node graph node_like = Returned node →
  producing node_like to_exhaustion target w = (Returned out, w') →
  journal w' = journal w ++ committed_scopes (next_session w) deps
  ∧ next_session w' = next_session w + length deps.
Proof.
  intros deps Hnode Hprod. unfold produce in Hprod.
  unfold resolve_node in Hnode. rewrite Hnode in Hprod. fold deps in Hprod.
  destruct (runs_or_first_failure run self graph to_exhaustion target deps
              (next_session w) (committed w))
    as [(rowss & outs & Hr)
       |(done & failed & rest & rowss & outs & rows & e & Hsplit & Hr & Hf)].
  - destruct (loop_runs run self graph to_exhaustion target deps [] rowss
                outs None w Hr) as (w1 & Hloop & Hc & Hj & [Hn Hs]).
    rewrite app_nil_r in Hloop. rewrite Hloop in Hprod. simpl in Hprod.
    by injection Hprod as _ <-.
  - exfalso.
    destruct (loop_runs run self graph to_exhaustion target done
                (failed :: rest) rowss outs None w Hr)
      as (w1 & Hloop & Hc & Hj & [Hn Hs]).
    rewrite <- Hsplit in Hloop. rewrite Hloop in Hprod. simpl in Hprod.
    destruct (execution_em_run run self graph to_exhaustion target failed w1)
      as (Hex & _ & Hrw).
    rewrite <- Hn, <- Hc in Hf. rewrite Hex in Hprod. rewrite Hf in Hrw.
    injection Hrw as _ Hres. rewrite Hres in Hprod. done.
Qed.

(** X3. A second call of [produce] for the same node runs every node of
    the execution order again, each in a new scope on a new session:
    nothing is remembered from the first call at this level. *)
Theorem produce_again_runs_everything_again (node_like : Node + string)
    (node : Node) (w w1 w2 : World) (out1 out2 : option DataBlock) :
  let deps :=
    get_all_upstream_dependencies_in_execution_order
      (get_flattened_graph graph) node in
  resolve_node get_any_node graph node_like = Returned node →
  producing node_like to_exhaustion target w = (Returned out1, w1) →
  producing node_like to_exhaustion target w1 = (Returned out2, w2) →
  ran_nodes (journal w2) = ran_nodes (journal w) ++ deps ++ deps
  ∧ journal w2
    = journal w ++ committed_scopes (next_session w) deps
        ++ committed_scopes (next_session w + length deps) deps
  ∧ next_session w2 = next_session w + 2 * length deps.
Proof.
  intros deps Hnode H1 H2.
  destruct (produce_returned_world _ _ _ _ _ Hnode H1) as [Hj1 Hn1].
  destruct (produce_returned_world _ _ _ _ _ Hnode H2) as [Hj2 Hn2].
  fold deps in Hj1, Hn1, Hj2, Hn2. split_and!.
  - rewrite Hj2, Hj1, !ran_nodes_app, !ran_nodes_committed_scopes.
    by rewrite <- app_assoc.
  - rewrite Hj2, Hj1, Hn1. by rewrite <- app_assoc.
  - lia.
Qed.

(** *** Tracked sessions *)

Lemma close_all_spec (tracked : list nat) (w : World) :
  let w' := foldl (λ w s, session_close s w) w tracked in
  committed w' = committed w
  ∧ next_session w' = next_session w
  ∧ journal w' = journal w ++ (Closed <$> tracked)
  ∧ (∀ s, s ∈ tracked → sessions w' !! s = None)
  ∧ (∀ s, s ∉ tracked → sessions w' !! s = sessions w !! s).
Proof.
  revert w. induction tracked as [|t tracked IH]; intros w; simpl.
  - rewrite app_nil_r. split_and!; try done. intros s Hs.
    by apply elem_of_nil in Hs.
  - destruct (IH (session_close t w)) as (Hc & Hn & Hj & Hin & Hout).
    split_and!.
    + by rewrite Hc.
    + by rewrite Hn.
    + rewrite Hj. simpl. by rewrite <- app_assoc.
    + intros s Hs. destruct (decide (s ∈ tracked)) as [Ht|Ht].
      * by apply Hin.
      * rewrite (Hout s Ht). simpl.
        apply elem_of_cons in Hs as [->|Hs]; [|done].
        apply lookup_delete_eq.
    + intros s Hs. apply not_elem_of_cons in Hs as [Hne Hs].
      rewrite (Hout s Hs). simpl. by apply lookup_delete_ne.
Qed.

(** X4. [close_sessions] closes every session that
    [get_new_metadata_session] handed out and forgets them; it commits
    nothing, so rows left pending in those sessions are dropped, and it
    leaves every other session as it is. *)
Theorem close_sessions_releases_tracked (tracked : list nat) (w : World) :
  let opened := get_new_metadata_session tracked w in
  let closed := close_sessions opened.1.2 opened.2 in
  opened.1.2 = tracked ++ [opened.1.1]
  ∧ sessions opened.2 !! opened.1.1 = Some []
  ∧ closed.1 = []
  ∧ committed closed.2 = committed w
  ∧ sessions closed.2 !! opened.1.1 = None
  ∧ (∀ s rows,
       s ∈ tracked →
       sessions (close_sessions tracked (session_add s rows w)).2 !! s = None
       ∧ committed (close_sessions tracked (session_add s rows w)).2
         = committed w)
  ∧ (∀ s, s ∉ tracked → s ≠ opened.1.1 →
       sessions closed.2 !! s = sessions w !! s).
Proof.
  unfold get_new_metadata_session, close_sessions, Session. simpl.
  set (s0 := next_session w).
  set (w1 := {| committed := committed w;
                sessions := <[s0 := []]> (sessions w);
                next_session := S s0;
                journal := journal w ++ [Opened s0] |}).
  destruct (close_all_spec (tracked ++ [s0]) w1) as (Hc & _ & _ & Hin & Hout).
  split_and!; try done.
  - apply lookup_insert_eq.
  - apply Hin. apply elem_of_app. right. by apply list_elem_of_singleton.
  - intros s rows Hs.
    destruct (close_all_spec tracked (session_add s rows w))
      as (Hc' & _ & _ & Hin' & _).
    split; [by apply Hin'|done].
  - intros s Hs Hne. rewrite Hout.
    + simpl. by apply lookup_insert_ne.
    + intros [?|?%list_elem_of_singleton]%elem_of_app; done.
Qed.

(** *** Storages *)

Variable Storage_from_url : string → PyResult Storage.
Variable Runtime_from_storage : Storage → PyResult Runtime.

(** X5. When [add_storage] gets a storage or a url that resolves, the
    storage is appended to the storages before a runtime is looked for: a
    [ValueError] of [Runtime.from_storage] is swallowed and the storage is
    returned; any other exception is raised with the storage already
    registered. Storages are only appended, so with a storage registered
    before, the default target storage of an execution context stays the
    first one. *)
Theorem add_storage_registers_first (runtimes : list Runtime)
    (storage_like : StorageLike) (add_runtime : bool) (sr : Storage) :
  let res :=
    add_storage Storage_from_url Runtime_from_storage self runtimes
      storage_like add_runtime in
  match storage_like with
  | StorageUrl url => Storage_from_url url
  | StorageObject storage => Returned storage
  | StorageOther => Raised (mkExc TypeError "")
  end = Returned sr →
  storages res.1.2 = storages self ++ [sr]
  ∧ local_memory_storage res.1.2 = local_memory_storage self
  ∧ (storages self ≠ [] →
     ∀ (g : Graph) (s : nat),
       target_storage (get_execution_context res.1.2 g s None)
       = target_storage (get_execution_context self g s None))
  ∧ match (if add_runtime then Runtime_from_storage sr
           else Raised (mkExc ValueError "")) with
    | Returned rt => res.1.1 = Returned sr ∧ res.2 = runtimes ++ [rt]
    | Raised e =>
        res.2 = runtimes
        ∧ res.1.1 = (if isinstance e ValueError then Returned sr else Raised e)
    end.
Proof.
  intros res Hsr. unfold res, add_storage. rewrite Hsr.
  destruct add_runtime; simpl.
  - destruct (Runtime_from_storage sr) as [rt|e]; simpl.
    + split_and!; try done. intros Hne g s. by destruct (storages self).
    + destruct (isinstance e ValueError); simpl; split_and!; try done;
        intros Hne g s; by destruct (storages self).
  - split_and!; try done. intros Hne g s. by destruct (storages self).
Qed.

End EnvironmentCallersProperties.

Lemma run_graph_as_produce_witness :
  let p :=
    produce Pipeline3.get_any_node Pipeline3.get_flattened_graph
      Pipeline3.execution_order Pipeline3.run_clean_fails Pipeline3.env tt
      (inr "report") true None Pipeline3.empty_world in
  let g :=
    run_graph Pipeline3.get_flattened_graph EnvSamples.all_nodes
      Pipeline3.run_clean_fails Pipeline3.env tt true None
      Pipeline3.empty_world in
  g.2 = p.2
  ∧ match p.1 with
    | Returned _ => g.1 = Returned tt
    | Raised e => g.1 = Raised e
    end.
Proof.
  apply (run_graph_as_produce Pipeline3.get_any_node
           Pipeline3.get_flattened_graph Pipeline3.execution_order
           EnvSamples.all_nodes Pipeline3.run_clean_fails Pipeline3.env tt
           true None (inr "report") "report" Pipeline3.empty_world).
  - reflexivity.
  - reflexivity.
Defined.

Lemma produce_again_runs_everything_again_witness :
  let w := Pipeline3.empty_world in
  let first :=
    produce Pipeline3.get_any_node Pipeline3.get_flattened_graph
      Pipeline3.execution_order Pipeline3.run_ok Pipeline3.env tt
      (inr "clean") true None w in
  let second :=
    produce Pipeline3.get_any_node Pipeline3.get_flattened_graph
      Pipeline3.execution_order Pipeline3.run_ok Pipeline3.env tt
      (inr "clean") true None first.2 in
  ran_nodes (journal second.2)
  = ran_nodes (journal w) ++ ["source"; "clean"] ++ ["source"; "clean"]
  ∧ journal second.2
    = journal w ++ committed_scopes 0 ["source"; "clean"]
        ++ committed_scopes (0 + 2) ["source"; "clean"]
  ∧ next_session second.2 = 0 + 2 * 2.
Proof.
  intros w first second.
  apply (produce_again_runs_everything_again Pipeline3.get_any_node
           Pipeline3.get_flattened_graph Pipeline3.execution_order
           Pipeline3.run_ok Pipeline3.env tt true None (inr "clean") "clean"
           w first.2 second.2 (Some 1) (Some 3)).
  - reflexivity.
  - reflexivity.
  - reflexivity.
Defined.

Lemma add_storage_registers_first_witness :
  let res :=
    add_storage EnvSamples.Storage_from_url EnvSamples.Runtime_from_storage
      Pipeline3.env [] (StorageUrl "memory://other") true in
  storages res.1.2 = ["memory://local"; "memory://other"]
  ∧ res.1.1 = Returned "memory://other"
  ∧ res.2 = [].
Proof.
  intros res.
  pose proof (add_storage_registers_first (Graph := unit)
                Pipeline3.env EnvSamples.Storage_from_url
                EnvSamples.Runtime_from_storage [] (StorageUrl "memory://other")
                true "memory://other" eq_refl) as (Hs & _ & _ & Hr).
  simpl in Hr. destruct Hr as [Hrt Hres]. done.
Defined.

(** ** Runtime classes *)

Lemma append_cons (c : Ascii.ascii) (a b : string) :
  String c a +:+ b = String c (a +:+ b).
Proof. reflexivity. Qed.

Lemma append_nil (b : string) : "" +:+ b = b.
Proof. reflexivity. Qed.

Lemma lower_app (a b : string) : lower (a +:+ b) = lower a +:+ lower b.
Proof.
  induction a as [|c a IH]; [done|].
  rewrite append_cons. simpl. by rewrite IH, append_cons.
Qed.

Lemma prefix_app (n h b : string) :
  String.prefix n h = true → String.prefix n (h +:+ b) = true.
Proof.
  revert h. induction n as [|c n IH]; intros h.
  - intros _. by destruct (h +:+ b).
  - destruct h as [|d h]; [done|]. rewrite append_cons. simpl.
    destruct (Ascii.ascii_dec c d); [apply IH|done].
Qed.

Lemma contains_app_r (n h b : string) :
  contains n h = true → contains n (h +:+ b) = true.
Proof.
  induction h as [|c h IH].
  - rewrite append_nil. destruct n as [|d n]; [|done].
    intros _. by destruct b.
  - rewrite append_cons. cbn [contains].
    intros [Hp|Hc]%orb_true_iff; apply orb_true_iff.
    + left. by apply (prefix_app n (String c h) b).
    + right. by apply IH.
Qed.

Lemma contains_app_l (n a h : string) :
  contains n h = true → contains n (a +:+ h) = true.
Proof.
  intros Hc. induction a as [|c a IH]; [done|].
  rewrite append_cons. cbn [contains]. rewrite IH. apply orb_true_r.
Qed.

Lemma contains_app (n a h b : string) :
  contains n h = true → contains n (a +:+ h +:+ b) = true.
Proof. intros Hc. by apply contains_app_l, contains_app_r. Qed.

(** X6. A runtime string that is a database runtime stays one with any
    text before and after it, and whatever the case of its letters. *)
Theorem get_runtime_class_database (before runtime after given : string) :
  get_runtime_class (Some runtime) = DATABASE →
  lower given = lower (before +:+ runtime +:+ after) →
  get_runtime_class (Some given) = DATABASE.
Proof.
  unfold get_runtime_class. intros Hdb ->. rewrite !lower_app.
  destruct (contains "ql" (lower runtime)) eqn:H1.
  - by rewrite (contains_app _ _ _ _ H1).
  - destruct (contains "database" (lower runtime)) eqn:H2.
    + rewrite (contains_app _ _ _ _ H2). by rewrite orb_true_r.
    + destruct (contains "postgre" (lower runtime)) eqn:H3; [|done].
      rewrite (contains_app _ _ _ _ H3). by rewrite !orb_true_r.
Qed.

Lemma get_runtime_class_database_witness :
  get_runtime_class (Some "MySQL>=8.0") = DATABASE.
Proof.
  apply (get_runtime_class_database "my" "sql" ">=8.0" "MySQL>=8.0");
    reflexivity.
Defined.

Example get_runtime_class_examples :
  get_runtime_class None = PYTHON
  ∧ get_runtime_class (Some "python==3.7.4") = PYTHON
  ∧ get_runtime_class (Some "postgres") = DATABASE
  ∧ get_runtime_class (Some "sqlite") = DATABASE.
Proof. split_and!; reflexivity. Qed.

(** ** Pipe objects *)

Section PipeProperties.

Context {Obj Annotation : Type}.

Local Abbreviation Pipe := (Pipes.Pipe Obj Annotation).
Local Abbreviation PipeCallable := (Pipes.PipeCallable Annotation).
Local Abbreviation PipeInterface := (Pipes.PipeInterface Annotation).

Variable DEFAULT_LOCAL_MODULE : DagsModule.
Variable obj_of_pipes : list Pipe → Obj.
Variable obj_of_bool : bool → Obj.
Variable from_pipe_definition : option PipeCallable → option PipeInterface.
Variable from_type_annotation : string → option string → Annotation.

Local Abbreviation dot :=
  (Ascii.Ascii false true true true false true false false).

Lemma dot_app (t : string) : "." +:+ t = String dot t.
Proof. reflexivity. Qed.

Lemma dotless_head (c : Ascii.ascii) (m : string) :
  contains "." (String c m) = false → contains "." m = false ∧ c ≠ dot.
Proof.
  cbn [contains]. intros [Hp Hc]%orb_false_iff. split; [done|].
  intros ->. simpl in Hp. by destruct m.
Qed.

Lemma dotted_split (m m' n n' : string) :
  contains "." m = false → contains "." m' = false →
  m +:+ String dot n = m' +:+ String dot n' → m = m' ∧ n = n'.
Proof.
  revert m'. induction m as [|c m IH]; intros [|c' m'] Hm Hm' Heq.
  - rewrite (append_nil (String dot n)), (append_nil (String dot n')) in Heq.
    by injection Heq as ->.
  - rewrite (append_nil (String dot n)), append_cons in Heq.
    apply dotless_head in Hm' as [_ Hc]. by injection Heq as <- _.
  - rewrite (append_nil (String dot n')), append_cons in Heq.
    apply dotless_head in Hm as [_ Hc]. by injection Heq as -> _.
  - rewrite !append_cons in Heq. injection Heq as -> Heq.
    apply dotless_head in Hm as [Hm _].
    apply dotless_head in Hm' as [Hm' _].
    destruct (IH m' Hm Hm' Heq) as [-> ->]. done.
Qed.

(** X7. The key of a pipe is its module name, a dot and its name, or
    the name alone when the module name is empty. Pipes whose module
    names are not empty and hold no dot have the same key only if they
    have the same module name and the same name. *)
Theorem pipe_key_identifies (p q : Pipe) :
  Pipes.module_name p ≠ "" → Pipes.module_name q ≠ "" →
  contains "." (Pipes.module_name p) = false →
  contains "." (Pipes.module_name q) = false →
  Pipes.key p = Pipes.key q →
  Pipes.module_name p = Pipes.module_name q ∧ Pipes.name p = Pipes.name q.
Proof.
  unfold Pipes.key. intros Hp Hq Hdp Hdq.
  apply String.eqb_neq in Hp, Hq. rewrite Hp, Hq. simpl.
  rewrite !dot_app. by apply dotted_split.
Qed.

Lemma two_classes_allowed (config_class state_class : option Obj) :
  dom ({[ "config_class" := config_class; "state_class" := state_class ]}
         : gmap string (option Obj))
  ⊆ ({[ "config_class"; "state_class" ]} : gset string).
Proof. rewrite dom_insert_L, dom_singleton_L. set_solver. Qed.

(** What [pipe_factory] returns when it returns. *)
Lemma pipe_factory_returned (pipe_callable : option PipeCallable)
    (name : option string) (module : option (DagsModule + string))
    (compatible_runtimes : option string)
    (inputs : option (list (string * string))) (output : option string)
    (kwargs : gmap string (option Obj)) (n : string) :
  match name with
  | Some n' => Some n'
  | None => Pipes.make_pipe_name <$> pipe_callable
  end = Some n →
  dom kwargs ⊆ ({[ "config_class"; "state_class" ]} : gset string) →
  Pipes.pipe_factory DEFAULT_LOCAL_MODULE pipe_callable name module
    compatible_runtimes inputs output kwargs
  = Returned
      {| Pipes.name := n;
         Pipes.module_name :=
           match default (inl DEFAULT_LOCAL_MODULE) module with
           | inl m => dm_name m
           | inr s => s
           end;
         Pipes.pipe_callable := pipe_callable;
         Pipes.compatible_runtime_classes :=
           [get_runtime_class compatible_runtimes];
         Pipes.config_class := default None (kwargs !! "config_class");
         Pipes.state_class := default None (kwargs !! "state_class");
         Pipes.declared_inputs := inputs;
         Pipes.declared_output := output |}.
Proof.
  intros Hn Hk. unfold Pipes.pipe_factory, Pipes.Pipe_init.
  rewrite bool_decide_eq_true_2 by done.
  destruct name as [n'|]; [by injection Hn as ->|].
  destruct pipe_callable as [c|]; [|done]. simpl in Hn. by injection Hn as ->.
Qed.

(** X8. [pipe_factory] returns a pipe exactly when it has a name or a
    callable to take one from and no keyword besides [config_class] and
    [state_class]; without name and callable it raises [RuntimeError],
    with another keyword [TypeError]. The pipe it returns has one
    compatible runtime class, that of [get_runtime_class], the given name
    before the name of the callable, and the local module when no module
    is given. *)
Theorem pipe_factory_returns_iff (pipe_callable : option PipeCallable)
    (name : option string) (module : option (DagsModule + string))
    (compatible_runtimes : option string)
    (inputs : option (list (string * string))) (output : option string)
    (kwargs : gmap string (option Obj)) :
  let res :=
    Pipes.pipe_factory DEFAULT_LOCAL_MODULE pipe_callable name module
      compatible_runtimes inputs output kwargs in
  match res with
  | Returned p =>
      (is_Some name ∨ is_Some pipe_callable)
      ∧ dom kwargs ⊆ ({[ "config_class"; "state_class" ]} : gset string)
      ∧ Some (Pipes.name p)
        = match name with
          | Some n => Some n
          | None => Pipes.make_pipe_name <$> pipe_callable
          end
      ∧ Pipes.compatible_runtime_classes p
        = [get_runtime_class compatible_runtimes]
      ∧ (module = None → Pipes.module_name p = dm_name DEFAULT_LOCAL_MODULE)
      ∧ Pipes.pipe_callable p = pipe_callable
  | Raised e =>
      (name = None ∧ pipe_callable = None ∧ exc_class e = RuntimeError)
      ∨ ((is_Some name ∨ is_Some pipe_callable)
         ∧ ¬ dom kwargs ⊆ ({[ "config_class"; "state_class" ]} : gset string)
         ∧ exc_class e = TypeError)
  end.
Proof.
  unfold Pipes.pipe_factory, Pipes.Pipe_init.
  destruct name as [n|]; [|destruct pipe_callable as [c|]]; simpl.
  - case_bool_decide as Hk; simpl.
    + split_and!; try done; [left; by eexists|by intros ->].
    + right. split_and!; try done. left; by eexists.
  - case_bool_decide as Hk; simpl.
    + split_and!; try done; [right; by eexists|by intros ->].
    + right. split_and!; try done. right; by eexists.
  - by left.
Qed.

(** X9. Used as a decorator with a name, [pipe] gives the pipe that the
    factory gives for the callable under that name, and never raises;
    used with no first argument it names the pipe after the callable, and
    a [name] keyword given beside it is dropped. *)
Theorem pipe_decorator_names_the_pipe (n : string) (dropped : option string)
    (module : option (DagsModule + string))
    (compatible_runtimes : option string)
    (config_class state_class : option Obj)
    (inputs : option (list (string * string))) (output : option string)
    (f : PipeCallable) :
  let decorate first :=
    match Pipes.pipe DEFAULT_LOCAL_MODULE first dropped module
            compatible_runtimes config_class state_class inputs output with
    | Returned (inr partial) =>
        Pipes.call_partial DEFAULT_LOCAL_MODULE partial (Pipes.GivenCallable f)
    | other => other
    end in
  let made name :=
    {| Pipes.name := name;
       Pipes.module_name :=
         match default (inl DEFAULT_LOCAL_MODULE) module with
         | inl m => dm_name m
         | inr s => s
         end;
       Pipes.pipe_callable := Some f;
       Pipes.compatible_runtime_classes :=
         [get_runtime_class compatible_runtimes];
       Pipes.config_class := config_class;
       Pipes.state_class := state_class;
       Pipes.declared_inputs := inputs;
       Pipes.declared_output := output |} in
  decorate (Pipes.GivenName n) = Returned (inl (made n))
  ∧ decorate Pipes.GivenNothing
    = Returned (inl (made (Pipes.make_pipe_name f)))
  ∧ Pipes.pipe DEFAULT_LOCAL_MODULE (Pipes.GivenCallable f) (Some n) module
      compatible_runtimes config_class state_class inputs output
    = decorate (Pipes.GivenName n).
Proof.
  intros decorate made.
  assert (∀ name n',
            match name with
            | Some n'' => Some n''
            | None => Pipes.make_pipe_name <$> Some f
            end = Some n' →
            Pipes.pipe DEFAULT_LOCAL_MODULE (Pipes.GivenCallable f) name module
              compatible_runtimes config_class state_class inputs output
            = Returned (inl (made n'))) as Hdirect.
  { intros name n' Hn. unfold Pipes.pipe.
    rewrite (pipe_factory_returned (Some f) name module compatible_runtimes
               inputs output _ n' Hn (two_classes_allowed _ _)).
    unfold made. rewrite lookup_insert_eq.
    rewrite lookup_insert_ne by done. by rewrite lookup_singleton_eq. }
  assert (decorate (Pipes.GivenName n)
          = Pipes.pipe DEFAULT_LOCAL_MODULE (Pipes.GivenCallable f) (Some n)
              module compatible_runtimes config_class state_class inputs
              output) as -> by reflexivity.
  assert (decorate Pipes.GivenNothing
          = Pipes.pipe DEFAULT_LOCAL_MODULE (Pipes.GivenCallable f) None
              module compatible_runtimes config_class state_class inputs
              output) as -> by reflexivity.
  split_and!; [by apply Hdirect|by apply Hdirect|done].
Qed.

Lemma Pipe_init_unexpected (k : string) (name module_name : string)
    (pipe_callable : option PipeCallable) (classes : list RuntimeClass)
    (inputs : option (list (string * string))) (output : option string)
    (kwargs : gmap string (option Obj)) :
  k ∈ dom kwargs → k ≠ "config_class" → k ≠ "state_class" →
  Pipes.Pipe_init name module_name pipe_callable classes inputs output kwargs
  = Raised (mkExc TypeError "unexpected keyword argument").
Proof.
  intros Hk H1 H2. unfold Pipes.Pipe_init.
  rewrite bool_decide_eq_false_2; [done|]. intros Hsub.
  apply Hsub in Hk. apply elem_of_union in Hk as [Hk'|Hk'];
    by apply elem_of_singleton in Hk'.
Qed.

Lemma chain_pipes_raises (items : list (Pipes.ChainItem Obj Annotation))
    (module : option (DagsModule + string))
    (compatible_runtimes : option string)
    (inputs : option (list (string * string))) (output : option string)
    (kwargs : gmap string (option Obj)) (sub_funcs : list Pipe) (e : PyExc) :
  Pipes.chain_pipes DEFAULT_LOCAL_MODULE items module compatible_runtimes
    inputs output kwargs sub_funcs = Raised e →
  exc_class e = NotImplementedError ∨ exc_class e = TypeError.
Proof.
  revert sub_funcs. induction items as [|fn rest IH]; intros sub_funcs;
    simpl; [done|].
  destruct fn as [s|p|c|]; simpl.
  - intros [= <-]. by left.
  - apply IH.
  - unfold Pipes.pipe_factory, Pipes.Pipe_init. simpl.
    case_bool_decide; simpl; [apply IH|]. intros [= <-]. by right.
  - intros [= <-]. by right.
Qed.

(** X10. [pipe_chain] returns no pipe: its call of the factory passes
    the keywords [sub_graph] and [is_composite], which the dataclass
    [Pipe] does not have, so that whatever the chain holds the call ends
    in [TypeError], unless the loop over the chain has already raised
    [NotImplementedError] for a name or [TypeError]. *)
Theorem pipe_chain_raises (name : string)
    (items : list (Pipes.ChainItem Obj Annotation))
    (module : option (DagsModule + string))
    (compatible_runtimes : option string)
    (inputs : option (list (string * string))) (output : option string)
    (kwargs : gmap string (option Obj)) :
  ∃ e,
    Pipes.pipe_chain DEFAULT_LOCAL_MODULE obj_of_pipes obj_of_bool name items
      module compatible_runtimes inputs output kwargs = Raised e
    ∧ (exc_class e = NotImplementedError ∨ exc_class e = TypeError)
    ∧ ((∀ s, Pipes.ItemName s ∉ items) → exc_class e = TypeError).
Proof.
  unfold Pipes.pipe_chain.
  destruct (Pipes.chain_pipes _ items _ _ _ _ _ []) as [sub_funcs|e] eqn:Hloop.
  - eexists. unfold Pipes.pipe_factory. simpl.
    rewrite (Pipe_init_unexpected "sub_graph"); [by eauto| |done|done].
    rewrite dom_insert_L. apply elem_of_union. left.
    by apply elem_of_singleton.
  - exists e. split; [done|].
    pose proof (chain_pipes_raises _ _ _ _ _ _ _ _ Hloop) as Hkind.
    split; [done|]. intros Hnames. destruct Hkind as [Hni|]; [|done].
    exfalso. clear -Hloop Hni Hnames.
    revert Hloop. generalize (@nil Pipe).
    induction items as [|fn rest IH]; intros sub_funcs; simpl; [done|].
    destruct fn as [s|p|c|]; simpl.
    + intros _. apply (Hnames s). by left.
    + apply IH. intros s Hs. apply (Hnames s). by right.
    + unfold Pipes.pipe_factory, Pipes.Pipe_init. simpl.
      case_bool_decide; simpl.
      * apply IH. intros s Hs. apply (Hnames s). by right.
      * intros [= <-]. done.
    + intros [= <-]. done.
Qed.

(** X11. [get_interface] raises [AssertionError] when no interface is
    found for the callable, also for a pipe with declared inputs and
    output. Otherwise the interface it returns requires the context
    exactly when the found one does; it is the found one when neither
    inputs nor output are declared, and else holds one input per declared
    entry, in their order, and the declared output. *)
Theorem get_interface_keeps_context_flag (self : Pipe) :
  match Pipes._get_pipe_interface from_pipe_definition self with
  | None =>
      Pipes.get_interface from_pipe_definition from_type_annotation self
      = Raised (mkExc AssertionError "")
  | Some found =>
      ∃ dfi,
        Pipes.get_interface from_pipe_definition from_type_annotation self
        = Returned dfi
        ∧ Pipes.requires_pipe_context dfi = Pipes.requires_pipe_context found
        ∧ match Pipes.declared_output self, Pipes.declared_inputs self with
          | None, None => dfi = found
          | _, _ =>
              Pipes.inputs dfi
              = (λ item : string * string,
                   from_type_annotation item.2 (Some item.1))
                  <$> default [] (Pipes.declared_inputs self)
              ∧ Pipes.output dfi
                = (if negb (String.eqb
                              (default "" (Pipes.declared_output self)) "")
                   then Some (from_type_annotation
                                (default "" (Pipes.declared_output self)) None)
                   else None)
          end
  end.
Proof.
  unfold Pipes.get_interface.
  destruct (Pipes._get_pipe_interface _ self) as [found|]; [|done].
  unfold Pipes._get_declared_interface.
  destruct (Pipes.declared_output self) as [o|],
    (Pipes.declared_inputs self) as [i|]; simpl; eexists; split_and!; done.
Qed.

End PipeProperties.

(** ** More on MemoryToMemoryConverter *)

(** X12. The converter has a function for a pair of formats exactly when
    the first is one of its input formats, the second one of its output
    formats, and the two differ: for the two pairs of equal formats that
    its declaration covers, [_convert] raises [NotImplementedError] and
    stores nothing. *)
Theorem lookup_defined_iff (fi fo : DataFormat)
    (input_sdb output_sdb : StoredDataBlockMetadata) (mem : Memory) :
  (is_Some (MemoryToMemoryConverter.lookup (fi, fo))
   ↔ mkStorageFormat DICT_MEMORY fi
       ∈ MemoryToMemoryConverter.supported_input_formats
     ∧ mkStorageFormat DICT_MEMORY fo
         ∈ MemoryToMemoryConverter.supported_output_formats
     ∧ fi ≠ fo)
  ∧ (is_Some (mem !! replica_key input_sdb) →
     data_format input_sdb = data_format output_sdb →
     MemoryToMemoryConverter._convert input_sdb output_sdb mem
     = (Raised (mkExc NotImplementedError "formats"), mem)).
Proof.
  split.
  - unfold MemoryToMemoryConverter.supported_input_formats,
      MemoryToMemoryConverter.supported_output_formats.
    rewrite !elem_of_cons, !elem_of_nil.
    destruct fi, fo; simpl;
      (split;
       [ intros [c Hc];
         first [ discriminate Hc
               | repeat split; first [ discriminate | auto 10 ] ]
       | intros (Hi & Ho & Hne);
         first [ done
               | exfalso; intuition (discriminate || congruence) ] ]).
  - intros [ldr Hldr] Hsame.
    unfold MemoryToMemoryConverter._convert, get_local_memory_data_records.
    rewrite Hldr, <- Hsame.
    by destruct (data_format input_sdb).
Qed.

Lemma lookup_output_format (fi fo : DataFormat)
    (convert : RecordsObject → ObjectType → PyResult RecordsObject)
    (obj out : RecordsObject) (otype : ObjectType) :
  MemoryToMemoryConverter.lookup (fi, fo) = Some convert →
  convert obj otype = Returned out →
  object_format obj = fi ∧ object_format out = fo.
Proof.
  destruct fi, fo; simpl; intros [= <-]; destruct obj; simpl;
    try done; intros Hc;
    repeat match type of Hc with
    | context [match ?x with _ => _ end] => destruct x
    end; by simplify_eq.
Qed.

(** X13. [_convert] keeps the memory typed: when every replica holds an
    object of its format before the conversion, so it is after it, and the
    object stored for the output replica is of the format of the output
    stored block. *)
Theorem convert_keeps_memory_typed
    (input_sdb output_sdb : StoredDataBlockMetadata) (mem : Memory) :
  memory_typed mem →
  let res := MemoryToMemoryConverter._convert input_sdb output_sdb mem in
  memory_typed res.2
  ∧ match res.1 with
    | Returned _ =>
        ∃ ldr, res.2 !! replica_key output_sdb = Some ldr
               ∧ object_format (records_object ldr) = data_format output_sdb
    | Raised _ => True
    end.
Proof.
  intros Htyped.
  unfold MemoryToMemoryConverter._convert, get_local_memory_data_records.
  destruct (mem !! replica_key input_sdb) as [input_ldr|] eqn:Hin;
    [|by cbn].
  destruct (MemoryToMemoryConverter.lookup
              (data_format input_sdb, data_format output_sdb))
    as [convert|] eqn:Hlookup; [|by cbn].
  destruct (convert (records_object input_ldr) (realized_otype input_sdb))
    as [out|e] eqn:Hconv.
  - destruct (lookup_output_format _ _ _ _ _ _ Hlookup Hconv) as [_ Hout].
    cbn. unfold store_local_memory_data_records. split.
    + apply map_Forall_insert_2; [|done]. done.
    + eexists. split; [apply lookup_insert_eq|done].
  - destruct (isinstance e KeyError); by cbn.
Qed.

Lemma memory_ab_typed : memory_typed Samples.memory_ab.
Proof.
  unfold memory_typed, Samples.memory_ab. by apply map_Forall_singleton.
Qed.

Lemma convert_keeps_memory_typed_witness :
  let res :=
    MemoryToMemoryConverter._convert
      (Samples.replica "block1" DataFrameFormat)
      (Samples.replica "block1" RecordsListFormat) Samples.memory_ab in
  memory_typed res.2
  ∧ match res.1 with
    | Returned _ =>
        ∃ ldr,
          res.2 !! replica_key (Samples.replica "block1" RecordsListFormat)
          = Some ldr
          ∧ object_format (records_object ldr) = RecordsListFormat
    | Raised _ => True
    end.
Proof.
  apply (convert_keeps_memory_typed
           (Samples.replica "block1" DataFrameFormat)
           (Samples.replica "block1" RecordsListFormat) Samples.memory_ab).
  apply memory_ab_typed.
Defined.

Lemma foldl_extend {A} (acc : list A) (chunks : list (list A)) :
  foldl (λ all_ dl, all_ ++ dl) acc chunks = acc ++ concat chunks.
Proof.
  revert acc. induction chunks as [|c chunks IH]; intros acc; simpl.
  - by rewrite app_nil_r.
  - by rewrite IH, app_assoc.
Qed.

Lemma foldl_append_one {A} (acc chunks : list A) :
  foldl (λ all_ dl, all_ ++ [dl]) acc chunks = acc ++ chunks.
Proof.
  revert acc. induction chunks as [|c chunks IH]; intros acc; simpl.
  - by rewrite app_nil_r.
  - rewrite IH. by rewrite <- app_assoc.
Qed.

(** X14. A records list generator is converted as the concatenation of
    its chunks, in the order they are yielded: the list has every record
    of every chunk, and the frame is the frame of that list, so that how
    the records are cut into chunks makes no difference. *)
Theorem records_list_generator_flattens (chunks chunks' : list RecordsList)
    (otype : ObjectType) :
  MemoryToMemoryConverter.records_list_generator_to_records_list chunks otype
  = concat chunks
  ∧ length
      (MemoryToMemoryConverter.records_list_generator_to_records_list
         chunks otype)
    = sum_list (length <$> chunks)
  ∧ MemoryToMemoryConverter.records_list_generator_to_dataframe chunks otype
    = MemoryToMemoryConverter.records_list_to_dataframe (concat chunks) otype
  ∧ (concat chunks = concat chunks' →
     MemoryToMemoryConverter.records_list_generator_to_dataframe chunks otype
     = MemoryToMemoryConverter.records_list_generator_to_dataframe
         chunks' otype).
Proof.
  assert (∀ g,
            MemoryToMemoryConverter.records_list_generator_to_records_list
              g otype = concat g) as Hflat.
  { intros g.
    unfold MemoryToMemoryConverter.records_list_generator_to_records_list,
      get_generator. by rewrite foldl_extend. }
  split_and!.
  - apply Hflat.
  - rewrite Hflat. induction chunks as [|c chunks IH]; simpl; [done|].
    rewrite length_app, IH. done.
  - unfold MemoryToMemoryConverter.records_list_generator_to_dataframe.
    by rewrite Hflat.
  - intros Hsame.
    unfold MemoryToMemoryConverter.records_list_generator_to_dataframe.
    by rewrite !Hflat, Hsame.
Qed.

Lemma foldl_append_rows (otype : ObjectType) (df : DataFrame)
    (rest : list DataFrame) :
  frame_has otype df → Forall (frame_has otype) rest →
  frame_has otype (foldl pandas.append df rest)
  ∧ pandas.to_records (foldl pandas.append df rest)
    = pandas.to_records df ++ concat (pandas.to_records <$> rest).
Proof.
  revert df. induction rest as [|d rest IH]; intros df Hdf Hrest; simpl.
  - by rewrite app_nil_r.
  - apply Forall_cons in Hrest as [Hd Hrest].
    destruct Hdf as [Hwf Hn]. destruct Hd as [Hwf' Hn'].
    assert (df_names d = df_names df) as Hsame by by rewrite Hn, Hn'.
    destruct (append_wf _ _ Hwf Hwf' Hsame) as [Hw Hnames].
    destruct (IH (pandas.append df d)) as [Hres Hrows]; [|done|].
    { split; [done|]. by rewrite Hnames. }
    split; [done|]. rewrite Hrows, to_records_append by done.
    by rewrite <- app_assoc.
Qed.

(** X15. A dataframe generator with at least one chunk, all of one
    schema, is converted to a frame of that schema whose rows are the rows
    of the chunks in the order they are yielded, and to the records list
    of those rows. *)
Theorem dataframe_generator_rows (chunks : list DataFrame)
    (otype : ObjectType) :
  chunks ≠ [] → Forall (frame_has otype) chunks →
  ∃ df,
    MemoryToMemoryConverter.dataframe_generator_to_dataframe chunks otype
    = Returned df
    ∧ frame_has otype df
    ∧ pandas.to_records df = concat (pandas.to_records <$> chunks)
    ∧ MemoryToMemoryConverter.dataframe_generator_to_records_list chunks otype
      = Returned (concat (pandas.to_records <$> chunks)).
Proof.
  intros Hne Hall. destruct chunks as [|df rest]; [done|].
  apply Forall_cons in Hall as [Hdf Hrest].
  destruct (foldl_append_rows otype df rest Hdf Hrest) as [Hhas Hrows].
  exists (foldl pandas.append df rest).
  assert (MemoryToMemoryConverter.dataframe_generator_to_dataframe
            (df :: rest) otype = Returned (foldl pandas.append df rest)) as Hd.
  { unfold MemoryToMemoryConverter.dataframe_generator_to_dataframe,
      get_generator. by rewrite foldl_append_one. }
  split_and!; try done.
  unfold MemoryToMemoryConverter.dataframe_generator_to_records_list.
  rewrite Hd. unfold MemoryToMemoryConverter.dataframe_to_records_list,
    utils_pandas.dataframe_to_records_list. by rewrite Hrows.
Qed.

Lemma dataframe_generator_rows_witness :
  ∃ df,
    MemoryToMemoryConverter.dataframe_generator_to_dataframe
      [Samples.frame_x [1; 2]%Z; Samples.frame_x [3]%Z] Samples.schema_x
    = Returned df
    ∧ frame_has Samples.schema_x df
    ∧ pandas.to_records df
      = concat (pandas.to_records
                  <$> [Samples.frame_x [1; 2]%Z; Samples.frame_x [3]%Z])
    ∧ MemoryToMemoryConverter.dataframe_generator_to_records_list
        [Samples.frame_x [1; 2]%Z; Samples.frame_x [3]%Z] Samples.schema_x
      = Returned
          (concat (pandas.to_records
                     <$> [Samples.frame_x [1; 2]%Z; Samples.frame_x [3]%Z])).
Proof.
  apply (dataframe_generator_rows
           [Samples.frame_x [1; 2]%Z; Samples.frame_x [3]%Z] Samples.schema_x).
  - done.
  - repeat (apply Forall_cons_2; [apply frame_x_has_schema|]).
    apply Forall_nil_2.
Defined.

(** X16. A dataframe generator that yields nothing cannot be converted:
    [_convert] raises the [ValueError] of [concat] and stores nothing,
    for both output formats. A records list generator that yields nothing
    is converted, to the empty list. *)
Theorem convert_empty_generators
    (input_sdb output_sdb : StoredDataBlockMetadata) (mem : Memory)
    (ldr : LocalMemoryDataRecords) :
  mem !! replica_key input_sdb = Some ldr →
  (data_format input_sdb = DataFrameGeneratorFormat →
   records_object ldr = ODataFrameGenerator [] →
   data_format output_sdb = DataFrameFormat
   ∨ data_format output_sdb = RecordsListFormat →
   MemoryToMemoryConverter._convert input_sdb output_sdb mem
   = (Raised (mkExc ValueError "No objects to concatenate"), mem))
  ∧ (data_format input_sdb = RecordsListGeneratorFormat →
     records_object ldr = ORecordsListGenerator [] →
     data_format output_sdb = RecordsListFormat →
     MemoryToMemoryConverter._convert input_sdb output_sdb mem
     = (Returned output_sdb,
        <[replica_key output_sdb := from_records_object (ORecordsList [])]>
          mem)).
Proof.
  intros Hin.
  unfold MemoryToMemoryConverter._convert, get_local_memory_data_records.
  rewrite Hin. split.
  - intros -> -> [-> | ->]; reflexivity.
  - intros -> -> ->. reflexivity.
Qed.

Lemma convert_empty_generators_witness :
  let input := Samples.replica "block2" DataFrameGeneratorFormat in
  let output := Samples.replica "block2" DataFrameFormat in
  let mem : Memory :=
    {[ replica_key input := from_records_object (ODataFrameGenerator []) ]} in
  MemoryToMemoryConverter._convert input output mem
  = (Raised (mkExc ValueError "No objects to concatenate"), mem).
Proof.
  intros input output mem.
  apply (convert_empty_generators input output mem
           (from_records_object (ODataFrameGenerator []))).
  - apply lookup_singleton_eq.
  - reflexivity.
  - reflexivity.
  - by left.
Defined.

(** ** The static csv pipes *)

Section ExtractCsvProperties.

Variable open_lines : string → PyResult (list string).
Variable read_csv : list string → PyResult RecordsList.

Lemma extract_csv_from_spec {Config} (path_of : Config → string)
    (ctx : PipeContext Config) :
  let res := static_csv.extract_csv_from open_lines read_csv path_of ctx in
  let path := path_of (config ctx) in
  if truthy (get_state_value ctx "extracted") then
    res = (Returned None, ctx, [])
  else
    res.2 = [path]
    ∧ match open_lines path with
      | Raised e => res.1 = (Raised e, ctx)
      | Returned lines =>
          match read_csv lines with
          | Raised e => res.1 = (Raised e, ctx)
          | Returned records =>
              res.1.1 = Returned (Some records)
              ∧ state res.1.2 = <["extracted" := VBool true]> (state ctx)
              ∧ config res.1.2 = config ctx
              ∧ static_csv.extract_csv_from open_lines read_csv path_of res.1.2
                = (Returned None, res.1.2, [])
          end
      end.
Proof.
  unfold static_csv.extract_csv_from.
  destruct (truthy (get_state_value ctx "extracted")) eqn:Hflag; [done|].
  destruct (open_lines _) as [lines|e]; [|done].
  destruct (read_csv lines) as [records|e]; [|done].
  simpl. split_and!; try done.
  unfold get_state_value at 1. simpl. by rewrite lookup_insert_eq.
Qed.

(** X17. Both [extract_csv] pipes read their file at most once with
    success. With the flag [extracted] set an invocation returns nothing
    and opens no file. With the flag not set it opens the configured
    path; if opening or parsing raises, the exception is raised and the
    context is left as it was, so that the next invocation reads again; if
    the records are read, they are returned, the flag is set, and the next
    invocation opens no file. *)
Theorem extract_csv_reads_once
    (ctx : PipeContext static_csv.ExtractLocalCSVConfig)
    (ctx' : PipeContext static_csv.LocalCSVResourceConfig) :
  (let res := static_csv.pipes_extract_csv open_lines read_csv ctx in
   let path := static_csv.pipe_path (config ctx) in
   if truthy (get_state_value ctx "extracted") then
     res = (Returned None, ctx, [])
   else
     res.2 = [path]
     ∧ match open_lines path with
       | Raised e => res.1 = (Raised e, ctx)
       | Returned lines =>
           match read_csv lines with
           | Raised e => res.1 = (Raised e, ctx)
           | Returned records =>
               res.1.1 = Returned (Some records)
               ∧ state res.1.2 = <["extracted" := VBool true]> (state ctx)
               ∧ config res.1.2 = config ctx
               ∧ static_csv.pipes_extract_csv open_lines read_csv res.1.2
                 = (Returned None, res.1.2, [])
           end
       end)
  ∧ (let res := static_csv.external_extract_csv open_lines read_csv ctx' in
     let path := static_csv.resource_path (config ctx') in
     if truthy (get_state_value ctx' "extracted") then
       res = (Returned None, ctx', [])
     else
       res.2 = [path]
       ∧ match open_lines path with
         | Raised e => res.1 = (Raised e, ctx')
         | Returned lines =>
             match read_csv lines with
             | Raised e => res.1 = (Raised e, ctx')
             | Returned records =>
                 res.1.1 = Returned (Some records)
                 ∧ state res.1.2 = <["extracted" := VBool true]> (state ctx')
                 ∧ config res.1.2 = config ctx'
                 ∧ static_csv.external_extract_csv open_lines read_csv res.1.2
                   = (Returned None, res.1.2, [])
             end
         end).
Proof.
  split.
  - apply (extract_csv_from_spec static_csv.pipe_path ctx).
  - apply (extract_csv_from_spec static_csv.resource_path ctx').
Qed.

End ExtractCsvProperties.

Example extract_csv_missing_then_present :
  let missing :=
    mkPipeContext ∅ (static_csv.mkPipeConfig "other.csv" None) None in
  let present :=
    mkPipeContext ∅ (static_csv.mkPipeConfig "data.csv" None) None in
  static_csv.pipes_extract_csv static_csv.one_file
    static_csv.lines_as_records missing
  = (Raised (mkExc RuntimeError "other.csv"), missing, ["other.csv"])
  ∧ (static_csv.pipes_extract_csv static_csv.one_file
       static_csv.lines_as_records present).1.1
    = Returned (Some [ {[ "line" := VStr "a" ]}; {[ "line" := VStr "b" ]} ]).
Proof. split; reflexivity. Qed.

(** ** Successive accumulations *)

(** X18. Run after run, the accumulator keeps every row: when storing a
    frame as a block and reading it back gives the frame, and all inputs
    have one schema, the block after the runs holds the rows of the first
    input, then those of the second, and so on, as many rows as the inputs
    have together. *)
Theorem accumulate_keeps_all_rows {DataBlock : Type}
    (as_dataframe : DataBlock → DataFrame) (block_of : DataFrame → DataBlock)
    (otype : ObjectType) (input : DataBlock) (inputs : list DataBlock) :
  (∀ df, as_dataframe (block_of df) = df) →
  Forall (λ b, frame_has otype (as_dataframe b)) (input :: inputs) →
  ∃ block,
    accumulate as_dataframe block_of (input :: inputs) None = Some block
    ∧ frame_has otype (as_dataframe block)
    ∧ pandas.to_records (as_dataframe block)
      = concat ((λ b, pandas.to_records (as_dataframe b)) <$> (input :: inputs))
    ∧ length (pandas.to_records (as_dataframe block))
      = sum_list ((λ b, df_nrows (as_dataframe b)) <$> (input :: inputs)).
Proof.
  intros Hstore Hall.
  assert (∀ rest this,
            frame_has otype (as_dataframe this) →
            Forall (λ b, frame_has otype (as_dataframe b)) rest →
            ∃ block,
              accumulate as_dataframe block_of rest (Some this) = Some block
              ∧ frame_has otype (as_dataframe block)
              ∧ pandas.to_records (as_dataframe block)
                = pandas.to_records (as_dataframe this)
                    ++ concat ((λ b, pandas.to_records (as_dataframe b))
                                 <$> rest)) as Hgen.
  { induction rest as [|b rest IH]; intros this Hthis Hrest; simpl.
    - exists this. by rewrite app_nil_r.
    - apply Forall_cons in Hrest as [Hb Hrest].
      destruct Hb as [Hwb Hnb]. destruct Hthis as [Hwt Hnt].
      assert (df_names (as_dataframe b) = df_names (as_dataframe this))
        as Hsame by by rewrite Hnb, Hnt.
      destruct (append_wf _ _ Hwt Hwb Hsame) as [Hw Hnames].
      destruct (IH (block_of (pandas.append (as_dataframe this)
                                (as_dataframe b))))
        as (block & Hacc & Hhas & Hrows); [|done|].
      { rewrite Hstore. split; [done|]. by rewrite Hnames. }
      exists block. split_and!; try done.
      rewrite Hrows, Hstore, to_records_append by done.
      by rewrite <- app_assoc. }
  apply Forall_cons in Hall as [Hin Hall].
  destruct (Hgen inputs (block_of (as_dataframe input)))
    as (block & Hacc & Hhas & Hrows); [by rewrite Hstore|done|].
  rewrite Hstore in Hrows.
  exists block. split_and!; try done.
  rewrite Hrows. simpl. rewrite length_app. f_equal.
  - unfold pandas.to_records. by rewrite length_fmap, length_seq.
  - clear. induction inputs as [|b rest IH]; [done|].
    rewrite !fmap_cons. cbn [concat sum_list sum_list_with].
    rewrite length_app. f_equal; [|apply IH].
    unfold pandas.to_records. by rewrite length_fmap, length_seq.
Qed.

Lemma accumulate_keeps_all_rows_witness :
  ∃ block,
    accumulate id id [Samples.frame_x [1; 2]%Z; Samples.frame_x [3]%Z;
                      Samples.frame_x [3]%Z] None = Some block
    ∧ frame_has Samples.schema_x (id block)
    ∧ pandas.to_records (id block)
      = concat ((λ b, pandas.to_records (id b))
                  <$> [Samples.frame_x [1; 2]%Z; Samples.frame_x [3]%Z;
                       Samples.frame_x [3]%Z])
    ∧ length (pandas.to_records (id block))
      = sum_list ((λ b, df_nrows (id b))
                    <$> [Samples.frame_x [1; 2]%Z; Samples.frame_x [3]%Z;
                         Samples.frame_x [3]%Z]).
Proof.
  apply (accumulate_keeps_all_rows id id Samples.schema_x
           (Samples.frame_x [1; 2]%Z)
           [Samples.frame_x [3]%Z; Samples.frame_x [3]%Z]).
  - done.
  - repeat (apply Forall_cons_2; [apply frame_x_has_schema|]).
    apply Forall_nil_2.
Defined.

Lemma pipe_key_identifies_witness :
  let p : Pipes.Pipe unit unit :=
    Pipes.mkPipe "extract_csv" "core" None [PYTHON] None None None None in
  let q : Pipes.Pipe unit unit :=
    Pipes.mkPipe "extract_csv" "core" None [DATABASE] None None None None in
  Pipes.module_name p = Pipes.module_name q ∧ Pipes.name p = Pipes.name q.
Proof.
  intros p q. apply (pipe_key_identifies p q); done.
Defined.
